(** * Magnifier.vue: the lens geometry and interaction-state engine

    A shallow embedding of the [setup] function of [src/Magnifier.vue]:
    the reactive refs become one [State] record, the handlers become
    computations in a small state/trace/exception monad, and the computed
    [mgStyle] becomes a pure function of props, window and state.

    Numbers.  A JavaScript number is modelled as an exact rational extended
    with [+Infinity], [-Infinity] and [NaN]: the special values that
    division by a zero [clientWidth] produces are kept, with the IEEE rules
    for arithmetic and comparison on them; rounding and the sign of zero
    are not modelled.  Quantities the DOM and the host hand in (bounding
    rectangle, client size, pointer coordinates, window metrics, configured
    pixel sizes) are finite and typed [Q]; quantities the component computes
    are typed [num].

    The engine itself computes in IEEE 754 binary64, where [+], [-], [*]
    and [/] round.  What is stated over [num] is stated of the quantities
    as the handlers and [mgStyle] compute and compare them; where the
    truth of a statement turns on rounding (the lens staying within the
    viewport), the computation is read in the kernel's binary64 floats
    instead: see the module [Lens]. *)

From Stdlib Require Import Floats QArith Lqa Bool List String PeanoNat.
Import ListNotations.

Local Open Scope Q_scope.

(** A decimal literal of a binary64 number stands for the nearest binary64
    number, as it does in JavaScript. *)
Set Warnings "-inexact-float".

(* ================================================================== *)
(** ** JavaScript numbers

    Sums, differences, products and quotients of finite numbers are exact
    here; in binary64 they are rounded to the nearest representable
    number and overflow to an infinity. *)

Module JsNum.

Inductive num : Type :=
| Fin (q : Q)
| PInf
| NInf
| NaN.

Definition neg (a : num) : num :=
  match a with
  | Fin q => Fin (- q)
  | PInf => NInf
  | NInf => PInf
  | NaN => NaN
  end.

Definition add (a b : num) : num :=
  match a, b with
  | NaN, _ | _, NaN => NaN
  | Fin x, Fin y => Fin (x + y)
  | PInf, NInf | NInf, PInf => NaN
  | PInf, _ | _, PInf => PInf
  | NInf, _ | _, NInf => NInf
  end.

Definition sub (a b : num) : num := add a (neg b).

(** The infinity carrying the sign of the comparison [c] of a finite
    number with zero; [NaN] when that number is zero. *)
Definition signed_inf (c : comparison) : num :=
  match c with
  | Gt => PInf
  | Lt => NInf
  | Eq => NaN
  end.

Definition mul (a b : num) : num :=
  match a, b with
  | NaN, _ | _, NaN => NaN
  | Fin x, Fin y => Fin (x * y)
  | Fin x, PInf | PInf, Fin x => signed_inf (x ?= 0)
  | Fin x, NInf | NInf, Fin x => signed_inf (0 ?= x)
  | PInf, PInf | NInf, NInf => PInf
  | PInf, NInf | NInf, PInf => NInf
  end.

Definition div (a b : num) : num :=
  match a, b with
  | NaN, _ | _, NaN => NaN
  | Fin x, Fin y =>
      match y ?= 0 with
      | Eq => signed_inf (x ?= 0)
      | _ => Fin (x / y)
      end
  | Fin _, PInf | Fin _, NInf => Fin 0
  | PInf, Fin y => match y ?= 0 with Lt => NInf | _ => PInf end
  | NInf, Fin y => match y ?= 0 with Lt => PInf | _ => NInf end
  | _, _ => NaN
  end.

(** [a < b]; every comparison with [NaN] is false. *)
Definition ltb (a b : num) : bool :=
  match a, b with
  | NaN, _ | _, NaN => false
  | Fin x, Fin y => match x ?= y with Lt => true | _ => false end
  | NInf, NInf => false
  | NInf, _ => true
  | _, PInf => match a with PInf => false | _ => true end
  | _, _ => false
  end.

(** [a <= b]. *)
Definition leb (a b : num) : bool :=
  match a, b with
  | NaN, _ | _, NaN => false
  | Fin x, Fin y => match x ?= y with Gt => false | _ => true end
  | NInf, _ => true
  | _, PInf => true
  | _, _ => false
  end.

Definition gtb (a b : num) : bool := ltb b a.
Definition geb (a b : num) : bool := leb b a.

(** Strict equality [===] on numbers. *)
Definition eqb (a b : num) : bool :=
  match a, b with
  | Fin x, Fin y => Qeq_bool x y
  | PInf, PInf | NInf, NInf => true
  | _, _ => false
  end.


End JsNum.

Import JsNum.

Coercion Fin : Q >-> num.

Declare Scope js_scope.
Delimit Scope js_scope with js.
Bind Scope js_scope with num.
Infix "+" := add : js_scope.
Infix "-" := sub : js_scope.
Infix "*" := mul : js_scope.
Infix "/" := div : js_scope.
Infix "<?" := ltb (at level 70) : js_scope.
Infix "<=?" := leb (at level 70) : js_scope.
Infix ">?" := gtb (at level 70) : js_scope.
Infix ">=?" := geb (at level 70) : js_scope.
Infix "===" := eqb (at level 70) : js_scope.

(* ================================================================== *)
(** ** Data the component works on *)

(** What [getBoundingClientRect()] returns: a rectangle in viewport
    coordinates. *)
Module DOMRect.
Record t : Type := mk { top : Q; left : Q; width : Q; height : Q }.
End DOMRect.

(** The [<img>] element, as far as the component reads it: its current
    layout rectangle and its client size. *)
Module Element.
Record t : Type :=
  mk { getBoundingClientRect : DOMRect.t; clientWidth : Q; clientHeight : Q }.
End Element.

Module MouseEvent.
Record t : Type := mk { clientX : Q; clientY : Q; target : Element.t }.
End MouseEvent.

Module Touch.
Record t : Type := mk { clientX : Q; clientY : Q }.
End Touch.

Module TouchEvent.
Record t : Type := mk { targetTouches : list Touch.t; target : Element.t }.
End TouchEvent.

(** The native [load] event; the component only forwards it. *)
Module LoadEvent.
Record t : Type := mk { type : string }.
End LoadEvent.

(** [window], as far as [mgStyle] reads it. *)
Module Window.
Record t : Type := mk { innerWidth : Q; scrollX : Q; scrollY : Q }.
End Window.

(** The props the engine reads ([width], [height], [className],
    [mgShowOverflow] and [mgShow] only feed the wrapper and image styles,
    which are not modelled). *)
Record Props : Type := mkProps {
  src : string;
  zoomImgSrc : string;
  zoomFactor : Q;
  mgWidth : Q;
  mgHeight : Q;
  mgBorderWidth : Q;
  mgShape : string;
  mgMouseOffsetX : Q;
  mgMouseOffsetY : Q;
  mgTouchOffsetX : Q;
  mgTouchOffsetY : Q;
  mgCornerBgColor : string
}.

(** The defaults declared in [props]. *)
Definition defaultProps (src : string) : Props :=
  {| src := src;
     zoomImgSrc := "";
     zoomFactor := 1.5;
     mgWidth := 150;
     mgHeight := 150;
     mgBorderWidth := 2;
     mgShape := "circle";
     mgMouseOffsetX := 0;
     mgMouseOffsetY := 0;
     mgTouchOffsetX := -50;
     mgTouchOffsetY := -50;
     mgCornerBgColor := "#fff" |}.

(** The refs created in [setup]. *)
Record State : Type := mkState {
  img : option Element.t;
  imgBounds : option DOMRect.t;
  showZoom : bool;
  mgOffsetX : Q;
  mgOffsetY : Q;
  relX : num;
  relY : num
}.

(** The state right after [setup], before the template ref is bound. *)
Definition initialState : State :=
  {| img := None; imgBounds := None; showZoom := false;
     mgOffsetX := 0; mgOffsetY := 0; relX := 0; relY := 0 |}.

(** The state once the template has been mounted on element [el]. *)
Definition mounted (el : Element.t) : State :=
  {| img := Some el; imgBounds := None; showZoom := false;
     mgOffsetX := 0; mgOffsetY := 0; relX := 0; relY := 0 |}.

(* ================================================================== *)
(** ** Template literals

    A template literal is kept as the sequence of its pieces; the decimal
    rendering of an interpolated number is not modelled. *)

Inductive Piece : Type :=
| Lit (s : string)
| Num (n : num)
| Str (s : string).

Definition Template : Type := list Piece.

(** [`${n}px`] *)
Definition px (n : num) : Template := [Num n; Lit "px"].

(** [`calc(${pct}% + ${plus}px - ${minus}px)`] *)
Definition calc (pct plus minus : num) : Template :=
  [Lit "calc("; Num pct; Lit "% + "; Num plus; Lit "px - "; Num minus;
   Lit "px)"].

(** The style object of the lens. *)
Module Style.
Record t : Type := mk {
  width : Template;
  height : Template;
  left : Template;
  top : Template;
  backgroundImage : Template;
  backgroundPosition : Template;
  backgroundSize : Template;
  borderWidth : Template;
  backgroundColor : string
}.
End Style.

(** [a || b] on strings: the empty string is falsy. *)
Definition str_or (a b : string) : string :=
  match a with
  | EmptyString => b
  | _ => a
  end.

(* ================================================================== *)
(** ** The computed lens style *)

Section Positioner.

Variable props : Props.
Variable window : Window.t.

Local Open Scope js_scope.

(** [mgStyle]; [None] stands for the empty object returned while the
    bounds are not measured. *)
Definition mgStyle (st : State) : option Style.t :=
  match imgBounds st with
  | None => None
  | Some bounds =>
      let viewportWidth : num := Window.innerWidth window in
      let x := relX st * DOMRect.width bounds - mgWidth props / 2%Q
               + mgOffsetX st in
      let y := relY st * DOMRect.height bounds - mgHeight props / 2%Q
               + mgOffsetY st in
      let top := DOMRect.top bounds + y + Window.scrollY window in
      let left := DOMRect.left bounds + x + Window.scrollX window in
      let left := if left <? Window.scrollX window
                  then Fin (Window.scrollX window) else left in
      let left := if left + mgWidth props
                     >? viewportWidth + Window.scrollX window
                  then viewportWidth + Window.scrollX window - mgWidth props
                  else left in
      Some {|
        Style.width := px (mgWidth props);
        Style.height := px (mgHeight props);
        Style.left := px left;
        Style.top := px top;
        Style.backgroundImage :=
          [Lit "url("; Str (str_or (zoomImgSrc props) (src props)); Lit ")"];
        Style.backgroundPosition :=
          calc (relX st * 100%Q) (mgWidth props / 2%Q)
               (relX st * mgWidth props)
          ++ [Lit " "]
          ++ calc (relY st * 100%Q) (mgHeight props / 2%Q)
                  (relY st * mgWidth props);
        Style.backgroundSize :=
          [Num (zoomFactor props * DOMRect.width bounds); Lit "% ";
           Num (zoomFactor props * DOMRect.height bounds); Lit "%"];
        Style.borderWidth := px (mgBorderWidth props);
        Style.backgroundColor := mgCornerBgColor props
      |}
  end.

End Positioner.

(* ================================================================== *)
(** ** Handlers: state, observable actions, exceptions *)

Inductive JsError : Type :=
| TypeError (msg : string).

(** What a handler does that is visible outside the refs, in program
    order. *)
Inductive Effect : Type :=
| ConsoleLog (label : string) (arg : option Element.t)
| Measured (r : DOMRect.t)
| Emitted (name : string) (payload : LoadEvent.t).

Inductive Completion (A : Type) : Type :=
| Normal (a : A)
| Throw (e : JsError).
Arguments Normal {A} a.
Arguments Throw {A} e.

(** The result of running a handler: how it completed, the refs it left
    behind, and its actions, oldest first.  Writes made before a throw
    stay. *)
Record Run (A : Type) : Type := mkRun {
  completion : Completion A;
  final : State;
  trace : list Effect
}.
Arguments mkRun {A}.
Arguments completion {A}.
Arguments final {A}.
Arguments trace {A}.

Definition Js (A : Type) : Type := State -> Run A.

Definition ret {A} (a : A) : Js A :=
  fun st => mkRun (Normal a) st [].

Definition bind {A B} (m : Js A) (k : A -> Js B) : Js B :=
  fun st =>
    let r := m st in
    match completion r with
    | Normal a =>
        let r' := k a (final r) in
        mkRun (completion r') (final r') (trace r ++ trace r')
    | Throw e => mkRun (Throw e) (final r) (trace r)
    end.

Definition get : Js State :=
  fun st => mkRun (Normal st) st [].

Definition modify (f : State -> State) : Js unit :=
  fun st => mkRun (Normal tt) (f st) [].

Definition tell (e : Effect) : Js unit :=
  fun st => mkRun (Normal tt) st [e].

Definition throw {A} (e : JsError) : Js A :=
  fun st => mkRun (Throw e) st [].

Declare Scope handler_scope.
Delimit Scope handler_scope with handler.
Notation "x <- m ;; k" := (bind m (fun x => k))
  (at level 61, m at next level, right associativity) : handler_scope.
Notation "m ;; k" := (bind m (fun _ => k))
  (at level 61, right associativity) : handler_scope.

(** Assignments to the refs. *)
Definition set_imgBounds (v : option DOMRect.t) : Js unit :=
  modify (fun st =>
    mkState (img st) v (showZoom st) (mgOffsetX st) (mgOffsetY st)
            (relX st) (relY st)).

Definition set_showZoom (v : bool) : Js unit :=
  modify (fun st =>
    mkState (img st) (imgBounds st) v (mgOffsetX st) (mgOffsetY st)
            (relX st) (relY st)).

Definition set_mgOffsetX (v : Q) : Js unit :=
  modify (fun st =>
    mkState (img st) (imgBounds st) (showZoom st) v (mgOffsetY st)
            (relX st) (relY st)).

Definition set_mgOffsetY (v : Q) : Js unit :=
  modify (fun st =>
    mkState (img st) (imgBounds st) (showZoom st) (mgOffsetX st) v
            (relX st) (relY st)).

Definition set_relX (v : num) : Js unit :=
  modify (fun st =>
    mkState (img st) (imgBounds st) (showZoom st) (mgOffsetX st)
            (mgOffsetY st) v (relY st)).

Definition set_relY (v : num) : Js unit :=
  modify (fun st =>
    mkState (img st) (imgBounds st) (showZoom st) (mgOffsetX st)
            (mgOffsetY st) (relX st) v).

(** [list[0]]: [undefined] on an empty list. *)
Definition first_touch (l : list Touch.t) : option Touch.t := nth_error l 0.

(** Reading a property of a value that may be [undefined] throws. *)
Definition prop_of {A B} (name : string) (o : option A) (f : A -> B) : Js B :=
  match o with
  | Some a => ret (f a)
  | None =>
      throw (TypeError ("Cannot read properties of undefined (reading '"
                         ++ name ++ "')"))
  end.

Section Handlers.

Variable props : Props.

Local Open Scope handler_scope.
Local Open Scope js_scope.

Definition calcImgBounds : Js unit :=
  st <- get ;;
  tell (ConsoleLog "calcImgBounds" (img st)) ;;
  match img st with
  | Some el =>
      let r := Element.getBoundingClientRect el in
      tell (Measured r) ;;
      set_imgBounds (Some r)
  | None => ret tt
  end.

Definition onImageLoad (event : LoadEvent.t) : Js unit :=
  tell (Emitted "image:load" event) ;;
  calcImgBounds.

Definition onMouseEnter : Js unit :=
  calcImgBounds.

Definition onMouseMove (e : MouseEvent.t) : Js unit :=
  st <- get ;;
  match imgBounds st with
  | None => ret tt
  | Some bounds =>
      let target := MouseEvent.target e in
      set_mgOffsetX (mgMouseOffsetX props) ;;
      set_mgOffsetY (mgMouseOffsetY props) ;;
      set_relX ((MouseEvent.clientX e - DOMRect.left bounds)
                / Element.clientWidth target) ;;
      set_relY ((MouseEvent.clientY e - DOMRect.top bounds)
                / Element.clientHeight target) ;;
      set_showZoom true
  end.

Definition onMouseOut : Js unit :=
  set_showZoom false.

Definition onTouchStart : Js unit :=
  calcImgBounds.

Definition onTouchMove (e : TouchEvent.t) : Js unit :=
  st <- get ;;
  match imgBounds st with
  | None => ret tt
  | Some bounds =>
      let target := TouchEvent.target e in
      tx <- prop_of "clientX" (first_touch (TouchEvent.targetTouches e))
                    Touch.clientX ;;
      let relXLocal := (tx - DOMRect.left bounds)
                       / Element.clientWidth target in
      ty <- prop_of "clientY" (first_touch (TouchEvent.targetTouches e))
                    Touch.clientY ;;
      let relYLocal := (ty - DOMRect.top bounds)
                       / Element.clientHeight target in
      if (relXLocal >=? 0%Q) && (relYLocal >=? 0%Q)
         && (relXLocal <=? 1%Q) && (relYLocal <=? 1%Q)
      then
        set_mgOffsetX (mgTouchOffsetX props) ;;
        set_mgOffsetY (mgTouchOffsetY props) ;;
        set_relX relXLocal ;;
        set_relY relYLocal ;;
        set_showZoom true
      else
        set_showZoom false
  end.

Definition onTouchEnd : Js unit :=
  set_showZoom false.

End Handlers.

(* ================================================================== *)
(** ** Vocabulary of the statements *)

(** A number lies in the closed interval [[0,1]]. *)
Definition in_unit_interval (n : num) : bool :=
  ((n >=? 0%Q) && (n <=? 1%Q))%js.

(** A number lies in the closed interval [[lo,hi]]. *)
Definition within (lo hi n : num) : Prop :=
  (lo <=? n)%js = true /\ (n <=? hi)%js = true.

(** The visibility flag, named as the state machine names it. *)
Inductive Visibility : Type := HIDDEN | SHOWN.

Definition visibility (st : State) : Visibility :=
  if showZoom st then SHOWN else HIDDEN.

(** The lens position before clamping (lines 128 and 132 of the source). *)
Definition unclampedLeft (props : Props) (window : Window.t) (st : State)
    (bounds : DOMRect.t) : num :=
  (DOMRect.left bounds
   + (relX st * DOMRect.width bounds - mgWidth props / 2%Q + mgOffsetX st)
   + Window.scrollX window)%js.

(** The left clamp (line 134). *)
Definition leftClamp (window : Window.t) (left : num) : num :=
  if (left <? Window.scrollX window)%js
  then Fin (Window.scrollX window) else left.

(** The right clamp (lines 135 to 137). *)
Definition rightClamp (props : Props) (window : Window.t) (left : num) : num :=
  if (left + mgWidth props
      >? Window.innerWidth window + Window.scrollX window)%js
  then (Window.innerWidth window + Window.scrollX window - mgWidth props)%js
  else left.

(** In a trace, every notification to the host comes after a
    measurement of the bounds. *)
Fixpoint emitted_after_measured (measured : bool) (tr : list Effect) : bool :=
  match tr with
  | [] => true
  | Measured _ :: tr' => emitted_after_measured true tr'
  | Emitted _ _ :: tr' => measured && emitted_after_measured measured tr'
  | ConsoleLog _ _ :: tr' => emitted_after_measured measured tr'
  end.

(** In a trace, every measurement of the bounds comes after a
    notification to the host. *)
Fixpoint measured_after_emitted (emitted : bool) (tr : list Effect) : bool :=
  match tr with
  | [] => true
  | Emitted _ _ :: tr' => measured_after_emitted true tr'
  | Measured _ :: tr' => emitted && measured_after_emitted emitted tr'
  | ConsoleLog _ _ :: tr' => measured_after_emitted emitted tr'
  end.

(* ================================================================== *)
(** ** Fixtures: the worked example of the specification *)

(** [{top:100, left:50, width:200, height:200}] *)
Definition exampleBounds : DOMRect.t :=
  {| DOMRect.top := 100; DOMRect.left := 50;
     DOMRect.width := 200; DOMRect.height := 200 |}.

Definition exampleImg : Element.t :=
  {| Element.getBoundingClientRect := exampleBounds;
     Element.clientWidth := 200; Element.clientHeight := 200 |}.

(** [{scrollX:0, scrollY:0, width:1000}] *)
Definition exampleWindow : Window.t :=
  {| Window.innerWidth := 1000; Window.scrollX := 0; Window.scrollY := 0 |}.

(** Zero mouse offsets, [mgWidth = mgHeight = 150]. *)
Definition exampleProps : Props := defaultProps "large.jpg".

(** The mounted component after its bounds were measured. *)
Definition measuredState : State :=
  {| img := Some exampleImg; imgBounds := Some exampleBounds;
     showZoom := false; mgOffsetX := 0; mgOffsetY := 0;
     relX := 0; relY := 0 |}.

(** The same component while the lens is shown at the centre. *)
Definition shownState : State :=
  {| img := Some exampleImg; imgBounds := Some exampleBounds;
     showZoom := true; mgOffsetX := -50; mgOffsetY := -50;
     relX := 0.5; relY := 0.5 |}.

Definition mouseAt (x y : Q) : MouseEvent.t :=
  {| MouseEvent.clientX := x; MouseEvent.clientY := y;
     MouseEvent.target := exampleImg |}.

Definition touchAt (x y : Q) : TouchEvent.t :=
  {| TouchEvent.targetTouches :=
       [{| Touch.clientX := x; Touch.clientY := y |}];
     TouchEvent.target := exampleImg |}.

Definition touchWithoutTouches : TouchEvent.t :=
  {| TouchEvent.targetTouches := []; TouchEvent.target := exampleImg |}.

(** A lens 150 wide in a viewport 100 wide. *)
Definition narrowWindow : Window.t :=
  {| Window.innerWidth := 100; Window.scrollX := 0; Window.scrollY := 0 |}.

(** A lens wider than it is tall. *)
Definition wideLensProps : Props :=
  {| src := "large.jpg"; zoomImgSrc := ""; zoomFactor := 2;
     mgWidth := 200; mgHeight := 100; mgBorderWidth := 2;
     mgShape := "square";
     mgMouseOffsetX := 0; mgMouseOffsetY := 0;
     mgTouchOffsetX := -50; mgTouchOffsetY := -50;
     mgCornerBgColor := "#fff" |}.

(* ================================================================== *)
(** ** The rest of the component: classes, wrapper, template *)

(** A prop declared [type: [String, Number]]. *)
Inductive CssSize : Type :=
| SizeString (s : string)
| SizeNumber (n : Q).

(** The props that only feed the wrapper, the image and the template. *)
Record ViewProps : Type := mkViewProps {
  width : CssSize;
  height : CssSize;
  className : string;
  mgShowOverflow : bool;
  mgShow : bool
}.

(** Their defaults declared in [props]. *)
Definition defaultViewProps : ViewProps :=
  {| width := SizeString "100%"; height := SizeString "auto";
     className := ""; mgShowOverflow := true; mgShow := true |}.

(** [mgClasses] *)
Definition mgClasses (props : Props) (st : State) : string :=
  let classes := "magnifier__glass"%string in
  let classes := if showZoom st
                 then (classes ++ " magnifier__visible")%string
                 else classes in
  let classes := if String.eqb (mgShape props) "circle"
                 then (classes ++ " magnifier__circle")%string
                 else classes in
  classes.

Module WrapperStyle.
Record t : Type := mk { width : CssSize; height : CssSize; overflow : string }.
End WrapperStyle.

(** [mgWrapperStyle] *)
Definition mgWrapperStyle (view : ViewProps) : WrapperStyle.t :=
  {| WrapperStyle.width := width view;
     WrapperStyle.height := height view;
     WrapperStyle.overflow :=
       if mgShowOverflow view then "visible" else "hidden" |}.

Module ImgStyle.
Record t : Type := mk { cursor : string; width : string; height : string }.
End ImgStyle.

(** [mgImgStyle] *)
Definition mgImgStyle (view : ViewProps) : ImgStyle.t :=
  {| ImgStyle.cursor := if mgShow view then "none" else "";
     ImgStyle.width := "100%";
     ImgStyle.height := "100%" |}.

(** The lens [<div>] of the template: it sits in a [Teleport] rendered
    [v-if="showZoom"] and is itself rendered [v-if="imgBounds && mgShow"];
    when rendered it carries [mgClasses] and [mgStyle]. *)
Module LensDiv.
Record t : Type := mk { class : string; style : option Style.t }.
End LensDiv.

Definition lensDiv (props : Props) (view : ViewProps) (window : Window.t)
    (st : State) : option LensDiv.t :=
  if showZoom st
  then
    if (match imgBounds st with Some _ => true | None => false end)
       && mgShow view
    then Some {| LensDiv.class := mgClasses props st;
                 LensDiv.style := mgStyle props window st |}
    else None
  else None.

(* ================================================================== *)
(** ** The component over time *)

(** One invocation of a handler of the template, or of the re-measurement
    that the debounced resize/scroll listener ends in.  (The throttle may
    drop a move event; an event it lets through is one [MouseMove] or
    [TouchMove].) *)
Inductive Call : Type :=
| ImageLoad (event : LoadEvent.t)
| MouseEnter
| MouseMove (e : MouseEvent.t)
| MouseOut
| TouchStart
| TouchMove (e : TouchEvent.t)
| TouchEnd
| Remeasure.

(** The bindings of the template ([@load], [@mouseenter], ...). *)
Definition handler (props : Props) (c : Call) : Js unit :=
  match c with
  | ImageLoad event => onImageLoad event
  | MouseEnter => onMouseEnter
  | MouseMove e => onMouseMove props e
  | MouseOut => onMouseOut
  | TouchStart => onTouchStart
  | TouchMove e => onTouchMove props e
  | TouchEnd => onTouchEnd
  | Remeasure => calcImgBounds
  end.

(** What happens to the component between two handlers: a handler is
    called, or the framework binds the template ref [img] (to the element
    in its current layout, or to [null] on unmount). *)
Inductive Step : Type :=
| Handle (c : Call)
| BindImg (el : option Element.t).

Definition bindImg (el : option Element.t) (st : State) : State :=
  mkState el (imgBounds st) (showZoom st) (mgOffsetX st) (mgOffsetY st)
          (relX st) (relY st).

(** A handler that throws ends there; the refs keep what it had written
    and the next step starts from them. *)
Definition step (props : Props) (s : Step) (st : State)
    : State * list Effect :=
  match s with
  | Handle c => let r := handler props c st in (final r, trace r)
  | BindImg el => (bindImg el st, [])
  end.

Fixpoint run (props : Props) (steps : list Step) (st : State)
    : State * list Effect :=
  match steps with
  | [] => (st, [])
  | s :: steps' =>
      let (st1, tr1) := step props s st in
      let (st2, tr2) := run props steps' st1 in
      (st2, tr1 ++ tr2)
  end.

(** The payloads of the [image:load] notifications of a trace, in order. *)
Fixpoint notifications (tr : list Effect) : list LoadEvent.t :=
  match tr with
  | [] => []
  | Emitted _ payload :: tr' => payload :: notifications tr'
  | _ :: tr' => notifications tr'
  end.

(** The load events among the steps, in order. *)
Fixpoint loads (steps : list Step) : list LoadEvent.t :=
  match steps with
  | [] => []
  | Handle (ImageLoad event) :: steps' => event :: loads steps'
  | _ :: steps' => loads steps'
  end.

Definition isMouseMove (s : Step) : bool :=
  match s with
  | Handle (MouseMove _) => true
  | _ => false
  end.

(* ================================================================== *)
(** ** Window listeners

    The listener list of an event target as the DOM keeps it: a listener
    is identified by its type, its callback and its capture flag;
    [addEventListener] appends one unless an identical one is there,
    [removeEventListener] removes the identical one. *)

Module EventTarget.

Record Listener : Type :=
  mkListener { type : string; callback : nat; capture : bool }.

Definition same (a b : Listener) : bool :=
  String.eqb (type a) (type b)
  && Nat.eqb (callback a) (callback b)
  && Bool.eqb (capture a) (capture b).

Definition addEventListener (l : Listener) (ls : list Listener)
    : list Listener :=
  if existsb (same l) ls then ls else ls ++ [l].

Fixpoint removeEventListener (l : Listener) (ls : list Listener)
    : list Listener :=
  match ls with
  | [] => []
  | l' :: ls' =>
      if same l l' then ls' else l' :: removeEventListener l ls'
  end.

End EventTarget.

(** The [onMounted] hook; [cb] is the identity of the function object
    [calcImgBoundsDebounced]. *)
Definition onMountedHook (cb : nat) (listeners : list EventTarget.Listener)
    : list EventTarget.Listener :=
  EventTarget.addEventListener
    (EventTarget.mkListener "scroll" cb true)
    (EventTarget.addEventListener
       (EventTarget.mkListener "resize" cb false) listeners).

(** The [onUnmounted] hook. *)
Definition onUnmountedHook (cb : nat) (listeners : list EventTarget.Listener)
    : list EventTarget.Listener :=
  EventTarget.removeEventListener
    (EventTarget.mkListener "scroll" cb true)
    (EventTarget.removeEventListener
       (EventTarget.mkListener "resize" cb false) listeners).

(** The hooks [setup] registers: both when [import.meta.client] holds,
    none otherwise. *)
Module Lifecycle.
Record t : Type := mk {
  mounted : list (list EventTarget.Listener -> list EventTarget.Listener);
  unmounted : list (list EventTarget.Listener -> list EventTarget.Listener)
}.
End Lifecycle.

Definition lifecycle (client : bool) (cb : nat) : Lifecycle.t :=
  if client
  then {| Lifecycle.mounted := [onMountedHook cb];
          Lifecycle.unmounted := [onUnmountedHook cb] |}
  else {| Lifecycle.mounted := []; Lifecycle.unmounted := [] |}.

(** Running the hooks of a lifecycle phase, in registration order. *)
Definition runHooks {A} (hooks : list (A -> A)) (a : A) : A :=
  fold_left (fun acc hook => hook acc) hooks a.

(* ================================================================== *)
(** ** Further fixtures *)

(** The image collapsed to zero client size, its last measurement still
    cached. *)
Definition collapsedImg : Element.t :=
  {| Element.getBoundingClientRect := exampleBounds;
     Element.clientWidth := 0; Element.clientHeight := 0 |}.

Definition touchOnCollapsed : TouchEvent.t :=
  {| TouchEvent.targetTouches :=
       [{| Touch.clientX := 60; Touch.clientY := 110 |}];
     TouchEvent.target := collapsedImg |}.

Definition mouseOnCollapsed : MouseEvent.t :=
  {| MouseEvent.clientX := 60; MouseEvent.clientY := 110;
     MouseEvent.target := collapsedImg |}.

(** An image 10000 by 10000 at the viewport's origin, measured. *)
Definition largeBounds : DOMRect.t :=
  {| DOMRect.top := 0; DOMRect.left := 0;
     DOMRect.width := 10000; DOMRect.height := 10000 |}.

Definition largeImg : Element.t :=
  {| Element.getBoundingClientRect := largeBounds;
     Element.clientWidth := 10000; Element.clientHeight := 10000 |}.

Definition largeMeasuredState : State :=
  {| img := Some largeImg; imgBounds := Some largeBounds;
     showZoom := false; mgOffsetX := 0; mgOffsetY := 0;
     relX := 0; relY := 0 |}.

Definition touchLargeAt (x y : Q) : TouchEvent.t :=
  {| TouchEvent.targetTouches :=
       [{| Touch.clientX := x; Touch.clientY := y |}];
     TouchEvent.target := largeImg |}.

(* ================================================================== *)
(** ** The horizontal placement in binary64

    The numbers of [JsNum] are exact.  The engine computes in IEEE 754
    binary64, where every sum, difference, product and quotient is
    rounded.  To see what rounding does to the clamps, the computation
    of [left] in [mgStyle] (lines 126 to 137) is written once over an
    arbitrary arithmetic and read in both: in the exact arithmetic,
    where it is the [left] of [mgStyle], and in the kernel's binary64
    floats, which are the numbers of the engine. *)

Module Lens.

(** The operations the computation of [left] uses. *)
Record Arithmetic (F : Type) : Type := mkArithmetic {
  plus : F -> F -> F;
  minus : F -> F -> F;
  times : F -> F -> F;
  divide : F -> F -> F;
  less : F -> F -> bool;
  two : F
}.
Arguments plus {F}.
Arguments minus {F}.
Arguments times {F}.
Arguments divide {F}.
Arguments less {F}.
Arguments two {F}.

(** The numbers the computation of [left] reads: [relX.value],
    [imgBounds.value.left], [imgBounds.value.width], [props.mgWidth],
    [mgOffsetX.value], [window.scrollX] and [window.innerWidth]. *)
Record Input (F : Type) : Type := mkInput {
  relX : F;
  boundsLeft : F;
  boundsWidth : F;
  mgWidth : F;
  mgOffsetX : F;
  scrollX : F;
  innerWidth : F
}.
Arguments relX {F}.
Arguments boundsLeft {F}.
Arguments boundsWidth {F}.
Arguments mgWidth {F}.
Arguments mgOffsetX {F}.
Arguments scrollX {F}.
Arguments innerWidth {F}.

Section Left.

Context {F : Type} (A : Arithmetic F).

Local Notation "a + b" := (plus A a b).
Local Notation "a - b" := (minus A a b).
Local Notation "a * b" := (times A a b).
Local Notation "a / b" := (divide A a b).
Local Notation "a < b" := (less A a b).
Local Notation "a > b" := (less A b a).

(** [x] of line 128. *)
Definition x (i : Input F) : F :=
  relX i * boundsWidth i - mgWidth i / two A + mgOffsetX i.



(** [left] as [mgStyle] returns it (lines 126 to 137). *)
Definition left (i : Input F) : F :=
  let viewportWidth := innerWidth i in
  let x := relX i * boundsWidth i - mgWidth i / two A + mgOffsetX i in
  let left := boundsLeft i + x + scrollX i in
  let left := if left < scrollX i then scrollX i else left in
  let left := if left + mgWidth i > viewportWidth + scrollX i
              then viewportWidth + scrollX i - mgWidth i
              else left in
  left.

End Left.

(** The exact arithmetic of [JsNum]. *)
Definition exact : Arithmetic num :=
  {| plus := JsNum.add; minus := JsNum.sub; times := JsNum.mul;
     divide := JsNum.div; less := JsNum.ltb; two := Fin 2 |}.


End Lens.

(** The numbers [mgStyle] reads, from the exact model. *)
Definition exactInput (props : Props) (window : Window.t) (st : State)
    (bounds : DOMRect.t) : Lens.Input num :=
  {| Lens.relX := relX st;
     Lens.boundsLeft := Fin (DOMRect.left bounds);
     Lens.boundsWidth := Fin (DOMRect.width bounds);
     Lens.mgWidth := Fin (mgWidth props);
     Lens.mgOffsetX := Fin (mgOffsetX st);
     Lens.scrollX := Fin (Window.scrollX window);
     Lens.innerWidth := Fin (Window.innerWidth window) |}.



(* ================================================================== *)
(** ** Proof automation *)

(** Unfold a handler down to the monad's primitives and run them. *)
Ltac run_handler :=
  cbv beta iota zeta delta
    [onImageLoad onMouseEnter onTouchStart calcImgBounds
     onMouseMove onMouseOut onTouchMove onTouchEnd
     set_imgBounds set_showZoom set_mgOffsetX set_mgOffsetY
     set_relX set_relY prop_of first_touch bind get modify tell ret
     throw completion final trace app nth_error].

(* ================================================================== *)
(** ** Facts about numbers *)

Section NumFacts.

Local Open Scope js_scope.

Lemma add_Fin (x y : Q) : Fin x + Fin y = Fin (x + y)%Q.
Proof. reflexivity. Qed.

Lemma sub_Fin (x y : Q) : Fin x - Fin y = Fin (x + - y)%Q.
Proof. reflexivity. Qed.

Lemma mul_Fin (x y : Q) : Fin x * Fin y = Fin (x * y)%Q.
Proof. reflexivity. Qed.

Lemma half_Fin (x : Q) : Fin x / Fin 2 = Fin (x / 2)%Q.
Proof. reflexivity. Qed.

Lemma ltb_Fin (x y : Q) : (Fin x <? Fin y) = true <-> (x < y)%Q.
Proof.
  unfold ltb. rewrite Qlt_alt.
  destruct (x ?= y)%Q; split; congruence.
Qed.

Lemma ltb_Fin_false (x y : Q) : (Fin x <? Fin y) = false <-> (y <= x)%Q.
Proof.
  unfold ltb.
  destruct (Qcompare_spec x y) as [E|L|G]; split; intro H;
    try reflexivity; try discriminate.
  - rewrite E. apply Qle_refl.
  - exfalso. apply (Qlt_not_le _ _ L H).
  - apply Qlt_le_weak, G.
Qed.

Lemma leb_Fin (x y : Q) : (Fin x <=? Fin y) = true <-> (x <= y)%Q.
Proof.
  unfold leb. rewrite Qle_alt.
  destruct (x ?= y)%Q; split; congruence.
Qed.

Lemma gtb_Fin (x y : Q) : (Fin x >? Fin y) = true <-> (y < x)%Q.
Proof. apply ltb_Fin. Qed.

Lemma gtb_Fin_false (x y : Q) : (Fin x >? Fin y) = false <-> (x <= y)%Q.
Proof. apply ltb_Fin_false. Qed.

Lemma geb_Fin (x y : Q) : (Fin x >=? Fin y) = true <-> (y <= x)%Q.
Proof. apply leb_Fin. Qed.

Lemma eqb_Fin (x y : Q) : (Fin x === Fin y) = true <-> (x == y)%Q.
Proof. apply Qeq_bool_iff. Qed.

(** Only a finite number lies in [[0,1]]. *)
Lemma in_unit_interval_Fin (n : num) :
  in_unit_interval n = true <->
  exists q : Q, n = Fin q /\ (0 <= q <= 1)%Q.
Proof.
  unfold in_unit_interval. rewrite andb_true_iff. split.
  - destruct n as [q| | |]; intros [H0 H1]; try discriminate.
    exists q. rewrite geb_Fin in H0. rewrite leb_Fin in H1. auto.
  - intros [q [-> [H0 H1]]]. rewrite geb_Fin, leb_Fin. auto.
Qed.

Lemma within_Fin (lo hi x : Q) :
  within (Fin lo) (Fin hi) (Fin x) <-> (lo <= x <= hi)%Q.
Proof. unfold within. rewrite !leb_Fin. tauto. Qed.

(** Division by a zero client size, as the handlers can meet it. *)
Example div_by_zero :
  Fin 3 / Fin 0 = PInf /\ Fin (-3) / Fin 0 = NInf /\ Fin 0 / Fin 0 = NaN.
Proof. repeat split. Qed.

(** No comparison holds of [NaN]. *)
Lemma NaN_compares_false (n : num) :
  (NaN <? n) = false /\ (n <? NaN) = false /\
  (NaN <=? n) = false /\ (n <=? NaN) = false /\
  (NaN === n) = false.
Proof. destruct n; repeat split. Qed.

End NumFacts.

(* ================================================================== *)
(** ** The handlers *)

Section HandlerFacts.

Variable props : Props.

Lemma calcImgBounds_attached (st : State) (el : Element.t) :
  img st = Some el ->
  calcImgBounds st =
  mkRun (Normal tt)
        (mkState (img st) (Some (Element.getBoundingClientRect el))
                 (showZoom st) (mgOffsetX st) (mgOffsetY st)
                 (relX st) (relY st))
        [ConsoleLog "calcImgBounds" (Some el);
         Measured (Element.getBoundingClientRect el)].
Proof. intros H. run_handler. rewrite H. run_handler. now rewrite ?H. Qed.

Lemma calcImgBounds_detached (st : State) :
  img st = None ->
  calcImgBounds st =
  mkRun (Normal tt) st [ConsoleLog "calcImgBounds" None].
Proof. intros H. run_handler. rewrite H. run_handler. now rewrite ?H. Qed.

Lemma calcImgBounds_showZoom (st : State) :
  showZoom (final (calcImgBounds st)) = showZoom st.
Proof.
  destruct (img st) as [el|] eqn:E.
  - rewrite (calcImgBounds_attached st el E). reflexivity.
  - rewrite (calcImgBounds_detached st E). reflexivity.
Qed.

Lemma onMouseMove_with_bounds (e : MouseEvent.t) (st : State)
    (b : DOMRect.t) :
  imgBounds st = Some b ->
  onMouseMove props e st =
  mkRun (Normal tt)
        (mkState (img st) (imgBounds st) true
                 (mgMouseOffsetX props) (mgMouseOffsetY props)
                 ((MouseEvent.clientX e - DOMRect.left b)
                  / Element.clientWidth (MouseEvent.target e))%js
                 ((MouseEvent.clientY e - DOMRect.top b)
                  / Element.clientHeight (MouseEvent.target e))%js)
        [].
Proof. intros H. run_handler. rewrite H. run_handler. now rewrite ?H. Qed.

(** The test of the touch handler is the conjunction of the two
    interval tests. *)
Lemma touch_test_in_unit_interval (rx ry : num) :
  ((rx >=? 0%Q) && (ry >=? 0%Q) && (rx <=? 1%Q) && (ry <=? 1%Q))%js
  = in_unit_interval rx && in_unit_interval ry.
Proof.
  unfold in_unit_interval.
  destruct (rx >=? 0%Q)%js, (ry >=? 0%Q)%js, (rx <=? 1%Q)%js,
           (ry <=? 1%Q)%js; reflexivity.
Qed.

Lemma onTouchMove_with_touch (e : TouchEvent.t) (st : State)
    (b : DOMRect.t) (t : Touch.t) (rest : list Touch.t) :
  imgBounds st = Some b ->
  TouchEvent.targetTouches e = t :: rest ->
  let rx := ((Touch.clientX t - DOMRect.left b)
             / Element.clientWidth (TouchEvent.target e))%js in
  let ry := ((Touch.clientY t - DOMRect.top b)
             / Element.clientHeight (TouchEvent.target e))%js in
  onTouchMove props e st =
  if in_unit_interval rx && in_unit_interval ry
  then mkRun (Normal tt)
             (mkState (img st) (imgBounds st) true
                      (mgTouchOffsetX props) (mgTouchOffsetY props) rx ry)
             []
  else mkRun (Normal tt)
             (mkState (img st) (imgBounds st) false
                      (mgOffsetX st) (mgOffsetY st) (relX st) (relY st))
             [].
Proof.
  intros Hb Ht rx ry. run_handler. rewrite Hb, Ht. run_handler.
  fold rx ry. rewrite touch_test_in_unit_interval.
  destruct (in_unit_interval rx && in_unit_interval ry);
    run_handler; now rewrite ?Hb.
Qed.

Lemma onTouchMove_without_touch (e : TouchEvent.t) (st : State)
    (b : DOMRect.t) :
  imgBounds st = Some b ->
  TouchEvent.targetTouches e = [] ->
  onTouchMove props e st =
  mkRun (Throw (TypeError
                  "Cannot read properties of undefined (reading 'clientX')"))
        st [].
Proof.
  intros Hb Ht. run_handler. rewrite Hb, Ht. run_handler.
  now rewrite ?Hb.
Qed.

End HandlerFacts.

(* ================================================================== *)
(** ** Visibility transitions *)

(** C7: a pointer-move or touch-move event that arrives while the cached
    bounds are absent makes the handler return at once: it completes
    normally, does nothing observable, and leaves every ref (visibility
    flag, relative position, offset pair, bounds) as it was. *)
Theorem move_without_bounds_changes_nothing (props : Props) (st : State) :
  imgBounds st = None ->
  (forall e : MouseEvent.t,
      onMouseMove props e st = mkRun (Normal tt) st []) /\
  (forall e : TouchEvent.t,
      onTouchMove props e st = mkRun (Normal tt) st []).
Proof.
  intros H. split; intros e; run_handler; rewrite H; reflexivity.
Qed.

Lemma move_without_bounds_changes_nothing_witness :
  final (onMouseMove exampleProps (mouseAt 150 200) (mounted exampleImg))
  = mounted exampleImg /\
  final (onTouchMove exampleProps touchWithoutTouches (mounted exampleImg))
  = mounted exampleImg.
Proof.
  destruct (move_without_bounds_changes_nothing
              exampleProps (mounted exampleImg) eq_refl) as [Hm Ht].
  split.
  - rewrite Hm. reflexivity.
  - rewrite Ht. reflexivity.
Defined.

(** C6: in the mouse modality, pointer-enter runs the measurement (the
    bounds become the element's current rectangle when it is attached)
    and leaves the visibility flag as it was; pointer-move with bounds
    present shows the lens whatever the pointer position is; and
    pointer-leave hides it. *)
Theorem mouse_modality_transitions (props : Props) (st : State) :
  (onMouseEnter st = calcImgBounds st /\
   (forall el : Element.t,
       img st = Some el ->
       imgBounds (final (onMouseEnter st))
       = Some (Element.getBoundingClientRect el) /\
       In (Measured (Element.getBoundingClientRect el))
          (trace (onMouseEnter st))) /\
   visibility (final (onMouseEnter st)) = visibility st) /\
  (forall (e : MouseEvent.t) (b : DOMRect.t),
      imgBounds st = Some b ->
      visibility (final (onMouseMove props e st)) = SHOWN) /\
  visibility (final (onMouseOut st)) = HIDDEN.
Proof.
  split; [split; [reflexivity | split] | split].
  - intros el Hel. unfold onMouseEnter.
    rewrite (calcImgBounds_attached st el Hel). cbn. auto.
  - unfold visibility, onMouseEnter. now rewrite calcImgBounds_showZoom.
  - intros e b Hb. rewrite (onMouseMove_with_bounds props e st b Hb).
    reflexivity.
  - reflexivity.
Qed.

Lemma mouse_modality_transitions_witness :
  visibility (final (onMouseEnter shownState)) = SHOWN /\
  visibility (final (onMouseMove exampleProps (mouseAt 5000 (-3))
                                 measuredState)) = SHOWN /\
  visibility (final (onMouseOut shownState)) = HIDDEN.
Proof.
  destruct (mouse_modality_transitions exampleProps shownState)
    as [[_ [_ Henter]] [_ Hout]].
  destruct (mouse_modality_transitions exampleProps measuredState)
    as [_ [Hmove _]].
  split; [exact Henter | split; [| exact Hout]].
  exact (Hmove (mouseAt 5000 (-3)) exampleBounds eq_refl).
Defined.

(** C5, as stated, fails for a touch-move event without an active
    touch: with bounds present and the lens shown, the handler computes
    no relative position, throws, and the lens stays shown instead of
    being hidden. *)
Lemma touch_move_without_touches_leaves_the_lens_shown :
  let r := onTouchMove exampleProps touchWithoutTouches shownState in
  imgBounds shownState = Some exampleBounds /\
  first_touch (TouchEvent.targetTouches touchWithoutTouches) = None /\
  visibility shownState = SHOWN /\
  visibility (final r) = SHOWN /\
  completion r
  = Throw (TypeError
             "Cannot read properties of undefined (reading 'clientX')").
Proof. repeat split. Qed.

(** C5, amended: a touch-move event with bounds present and an active touch
    computes the relative position of that touch; the lens is shown, with
    the touch offset pair and that position stored, exactly when both
    coordinates lie in the closed interval [[0,1]], and is hidden
    otherwise: a touch at [relX = 1.2] hides the lens, a touch at
    [relX = 0.9999] shows it.  Every touch-end event hides the lens. *)
Theorem touch_modality_transitions (props : Props) :
  (forall (e : TouchEvent.t) (st : State) (b : DOMRect.t) (t : Touch.t)
          (rest : list Touch.t),
      imgBounds st = Some b ->
      TouchEvent.targetTouches e = t :: rest ->
      let rx := ((Touch.clientX t - DOMRect.left b)
                 / Element.clientWidth (TouchEvent.target e))%js in
      let ry := ((Touch.clientY t - DOMRect.top b)
                 / Element.clientHeight (TouchEvent.target e))%js in
      let r := onTouchMove props e st in
      completion r = Normal tt /\
      (visibility (final r) = SHOWN <->
       in_unit_interval rx = true /\ in_unit_interval ry = true) /\
      (visibility (final r) = SHOWN ->
       mgOffsetX (final r) = mgTouchOffsetX props /\
       mgOffsetY (final r) = mgTouchOffsetY props /\
       relX (final r) = rx /\ relY (final r) = ry) /\
      (in_unit_interval rx = false \/ in_unit_interval ry = false ->
       visibility (final r) = HIDDEN)) /\
  (let r := onTouchMove props (touchAt 290 200) shownState in
   ((Fin 290 - Fin 50) / Fin 200 === Fin 1.2)%js = true /\
   visibility (final r) = HIDDEN) /\
  (let r := onTouchMove props (touchLargeAt 9999 5000)
                        largeMeasuredState in
   ((Fin 9999 - Fin 0) / Fin 10000 === Fin 0.9999)%js = true /\
   visibility (final r) = SHOWN) /\
  (forall st : State, visibility (final (onTouchEnd st)) = HIDDEN).
Proof.
  split; [| split; [| split]].
  - intros e st b t rest Hb Ht rx ry r. subst r.
    rewrite (onTouchMove_with_touch props e st b t rest Hb Ht).
    fold rx ry. rewrite <- andb_true_iff, <- andb_false_iff.
    destruct (in_unit_interval rx && in_unit_interval ry); cbn.
    + repeat split; auto; intros; congruence.
    + repeat split; auto; intros; try congruence; discriminate.
  - cbv zeta. split; reflexivity.
  - cbv zeta. split; reflexivity.
  - intros st. reflexivity.
Qed.

Lemma touch_modality_transitions_witness :
  visibility (final (onTouchMove exampleProps (touchAt 60 110)
                                 measuredState)) = SHOWN /\
  mgOffsetX (final (onTouchMove exampleProps (touchAt 60 110)
                                measuredState)) = -50 /\
  visibility (final (onTouchEnd shownState)) = HIDDEN.
Proof.
  destruct (touch_modality_transitions exampleProps)
    as [Hmove [_ [_ Hend]]].
  destruct (Hmove (touchAt 60 110) measuredState exampleBounds
                  {| Touch.clientX := 60; Touch.clientY := 110 |} []
                  eq_refl eq_refl) as [_ [Hiff [Hstored _]]].
  assert (Hshown : visibility (final (onTouchMove exampleProps
                                        (touchAt 60 110) measuredState))
                   = SHOWN)
    by (apply Hiff; split; reflexivity).
  split; [exact Hshown | split; [| exact (Hend shownState)]].
  exact (proj1 (Hstored Hshown)).
Defined.

(** An image element of zero client width: the relative position of any
    touch is [NaN] or infinite, which no interval test accepts, so the
    lens is hidden. *)
Example touch_move_on_collapsed_image_hides :
  let collapsed := {| Element.getBoundingClientRect := exampleBounds;
                      Element.clientWidth := 0;
                      Element.clientHeight := 0 |} in
  let e := {| TouchEvent.targetTouches :=
                [{| Touch.clientX := 50; Touch.clientY := 120 |}];
              TouchEvent.target := collapsed |} in
  ((Fin 50 - Fin 50) / Fin 0)%js = NaN /\
  ((Fin 120 - Fin 100) / Fin 0)%js = PInf /\
  onTouchMove exampleProps e shownState
  = mkRun (Normal tt)
          {| img := Some exampleImg; imgBounds := Some exampleBounds;
             showZoom := false; mgOffsetX := -50; mgOffsetY := -50;
             relX := 0.5; relY := 0.5 |}
          [].
Proof. repeat split. Qed.

(** C10: a touch-move event with bounds present whose relative
    coordinates fall outside [[0,1]] in either axis writes the visibility
    flag only: the stored relative position and the offset pair keep the
    values of the last in-bounds update, and the bounds stay. *)
Theorem touch_move_out_of_bounds_only_hides (props : Props)
    (e : TouchEvent.t) (st : State) (b : DOMRect.t) (t : Touch.t)
    (rest : list Touch.t) :
  imgBounds st = Some b ->
  TouchEvent.targetTouches e = t :: rest ->
  let rx := ((Touch.clientX t - DOMRect.left b)
             / Element.clientWidth (TouchEvent.target e))%js in
  let ry := ((Touch.clientY t - DOMRect.top b)
             / Element.clientHeight (TouchEvent.target e))%js in
  in_unit_interval rx = false \/ in_unit_interval ry = false ->
  let st' := final (onTouchMove props e st) in
  visibility st' = HIDDEN /\
  relX st' = relX st /\ relY st' = relY st /\
  mgOffsetX st' = mgOffsetX st /\ mgOffsetY st' = mgOffsetY st /\
  imgBounds st' = imgBounds st /\ img st' = img st.
Proof.
  intros Hb Ht rx ry Hout st'. subst st'.
  rewrite (onTouchMove_with_touch props e st b t rest Hb Ht).
  fold rx ry.
  replace (in_unit_interval rx && in_unit_interval ry) with false.
  - cbn. repeat split; reflexivity.
  - symmetry. apply andb_false_iff. exact Hout.
Qed.

Lemma touch_move_out_of_bounds_only_hides_witness :
  let st' := final (onTouchMove exampleProps (touchAt 290 200) shownState) in
  visibility st' = HIDDEN /\
  relX st' = Fin 0.5 /\ relY st' = Fin 0.5 /\
  mgOffsetX st' = -50 /\ mgOffsetY st' = -50 /\
  imgBounds st' = Some exampleBounds /\ img st' = Some exampleImg.
Proof.
  exact (touch_move_out_of_bounds_only_hides
           exampleProps (touchAt 290 200) shownState exampleBounds
           {| Touch.clientX := 290; Touch.clientY := 200 |} []
           eq_refl eq_refl (or_introl eq_refl)).
Defined.

(** C8: a touch-move event whose list of active touches is empty, arriving
    while the bounds are present, does not end as a silent no-op: reading
    [clientX] of the missing first touch throws a [TypeError].  No ref has
    been written by then, so the state is the one before the event. *)
Theorem touch_move_without_touches_throws :
  let r := onTouchMove exampleProps touchWithoutTouches shownState in
  completion r
  = Throw (TypeError
             "Cannot read properties of undefined (reading 'clientX')") /\
  final r = shownState /\
  trace r = [].
Proof.
  rewrite (onTouchMove_without_touch exampleProps touchWithoutTouches
             shownState exampleBounds eq_refl eq_refl).
  repeat split.
Qed.

(* ================================================================== *)
(** ** The image-load handler *)

(** C9, as stated, fails: on the mounted component the load handler
    notifies the host first and measures afterwards, so the notification
    is not preceded by any measurement. *)
Lemma image_load_notifies_before_measuring :
  let r := onImageLoad {| LoadEvent.type := "load" |} (mounted exampleImg) in
  trace r
  = [Emitted "image:load" {| LoadEvent.type := "load" |};
     ConsoleLog "calcImgBounds" (Some exampleImg);
     Measured exampleBounds] /\
  emitted_after_measured false (trace r) = false.
Proof. split; reflexivity. Qed.

(** C9, amended: on image-load completion the handler forwards exactly one
    [image:load] notification, carrying the native event, as its first
    action; the bounds measurement comes after it (and takes place when
    the image element is attached). *)
Theorem image_load_emits_then_measures (event : LoadEvent.t) (st : State) :
  let r := onImageLoad event st in
  completion r = Normal tt /\
  (exists tr : list Effect,
      trace r = Emitted "image:load" event :: tr /\
      trace (calcImgBounds st) = tr /\
      forall name payload, ~ In (Emitted name payload) tr) /\
  measured_after_emitted false (trace r) = true /\
  (forall el : Element.t,
      img st = Some el ->
      trace r = [Emitted "image:load" event;
                 ConsoleLog "calcImgBounds" (Some el);
                 Measured (Element.getBoundingClientRect el)] /\
      imgBounds (final r) = Some (Element.getBoundingClientRect el)).
Proof.
  intros r. subst r. unfold onImageLoad, bind, tell.
  cbn [completion final trace app].
  destruct (img st) as [el|] eqn:E.
  - rewrite (calcImgBounds_attached st el E). cbn.
    split; [reflexivity | split; [| split; [reflexivity |]]].
    + eexists. split; [reflexivity | split; [reflexivity |]].
      intros name payload [H | [H | []]]; discriminate.
    + intros el' Hel'. injection Hel' as <-. split; reflexivity.
  - rewrite (calcImgBounds_detached st E). cbn.
    split; [reflexivity | split; [| split; [reflexivity |]]].
    + eexists. split; [reflexivity | split; [reflexivity |]].
      intros name payload [H | []]; discriminate.
    + intros el' Hel'. discriminate.
Qed.

Lemma image_load_emits_then_measures_witness :
  imgBounds (final (onImageLoad {| LoadEvent.type := "load" |}
                                (mounted exampleImg)))
  = Some exampleBounds.
Proof.
  destruct (image_load_emits_then_measures
              {| LoadEvent.type := "load" |} (mounted exampleImg))
    as [_ [_ [_ H]]].
  exact (proj2 (H exampleImg eq_refl)).
Defined.

(* ================================================================== *)
(** ** The lens positioner *)

Section PositionerFacts.

Variable props : Props.
Variable window : Window.t.

Local Open Scope js_scope.

(** The [left] of the style is the unclamped position put through the
    left clamp and then through the right clamp. *)
Lemma mgStyle_left (st : State) (b : DOMRect.t) :
  imgBounds st = Some b ->
  exists sty : Style.t,
    mgStyle props window st = Some sty /\
    Style.left sty
    = px (rightClamp props window
            (leftClamp window (unclampedLeft props window st b))).
Proof.
  intros H. unfold mgStyle. rewrite H. eexists. split; reflexivity.
Qed.

Lemma unclampedLeft_finite (st : State) (b : DOMRect.t) (rx : Q) :
  relX st = Fin rx ->
  unclampedLeft props window st b
  = Fin (DOMRect.left b
         + (rx * DOMRect.width b + - (mgWidth props / 2) + mgOffsetX st)
         + Window.scrollX window)%Q.
Proof. intros H. unfold unclampedLeft. rewrite H. reflexivity. Qed.

(** With a viewport at least as wide as the lens, the two clamps bring
    any finite position into the viewport. *)
Lemma clamps_finite (raw : Q) :
  (mgWidth props <= Window.innerWidth window)%Q ->
  exists q : Q,
    rightClamp props window (leftClamp window (Fin raw)) = Fin q /\
    (Window.scrollX window <= q
     <= Window.scrollX window + Window.innerWidth window - mgWidth props)%Q.
Proof.
  intros Hw. unfold rightClamp, leftClamp.
  destruct (Fin raw <? Fin (Window.scrollX window)) eqn:E1;
    [apply ltb_Fin in E1 | apply ltb_Fin_false in E1];
    rewrite !add_Fin;
    match goal with
    | |- context [Fin ?a >? Fin ?c] =>
        destruct (Fin a >? Fin c) eqn:E2;
        [apply gtb_Fin in E2 | apply gtb_Fin_false in E2]
    end;
    eexists; (split; [reflexivity | lra]).
Qed.


End PositionerFacts.

(** In exact arithmetic: for every relative position with [relX] and
    [relY] in [[0,1]], every configured lens size and every viewport at
    least as wide as the lens, the [left] of [mgStyle] lies within
    [[scrollX, scrollX + viewportWidth - mgWidth]].  (Not so in binary64:
    see [lens_left_leaves_the_viewport] below.) *)
Theorem lens_left_within_viewport (props : Props) (window : Window.t)
    (st : State) (b : DOMRect.t) :
  imgBounds st = Some b ->
  in_unit_interval (relX st) = true ->
  in_unit_interval (relY st) = true ->
  (mgWidth props <= Window.innerWidth window)%Q ->
  exists (sty : Style.t) (left : num),
    mgStyle props window st = Some sty /\
    Style.left sty = px left /\
    within (Fin (Window.scrollX window))
           (Fin (Window.scrollX window + Window.innerWidth window
                 - mgWidth props)%Q)
           left.
Proof.
  intros Hb Hx _ Hw.
  apply in_unit_interval_Fin in Hx. destruct Hx as [rx [Hrx _]].
  destruct (mgStyle_left props window st b Hb) as [sty [Hsty Hleft]].
  rewrite (unclampedLeft_finite props window st b rx Hrx) in Hleft.
  destruct (clamps_finite props window
              (DOMRect.left b
               + (rx * DOMRect.width b + - (mgWidth props / 2) + mgOffsetX st)
               + Window.scrollX window)%Q Hw) as [q [Hq Hrange]].
  rewrite Hq in Hleft.
  exists sty, (Fin q). split; [exact Hsty | split; [exact Hleft |]].
  apply within_Fin. exact Hrange.
Qed.

(** The lens pushed against the right edge: the pointer at the far right
    of an image that ends at the viewport's right edge. *)
Lemma lens_left_within_viewport_witness :
  exists (sty : Style.t) (left : num),
    mgStyle exampleProps
            {| Window.innerWidth := 300; Window.scrollX := 20;
               Window.scrollY := 0 |}
            {| img := Some exampleImg; imgBounds := Some exampleBounds;
               showZoom := true; mgOffsetX := 0; mgOffsetY := 0;
               relX := 1; relY := 0 |}
    = Some sty /\
    Style.left sty = px left /\
    within (Fin 20) (Fin (20 + 300 - 150)%Q) left.
Proof.
  apply (lens_left_within_viewport
           exampleProps
           {| Window.innerWidth := 300; Window.scrollX := 20;
              Window.scrollY := 0 |}
           {| img := Some exampleImg; imgBounds := Some exampleBounds;
              showZoom := true; mgOffsetX := 0; mgOffsetY := 0;
              relX := 1; relY := 0 |}
           exampleBounds eq_refl eq_refl eq_refl).
  vm_compute. discriminate.
Defined.




(** Why the amended statement asks for a number: over a collapsed image
    (zero width) a mouse move stores an infinite [relX], the unclamped
    position is [Infinity * 0 = NaN], and neither clamp fires on [NaN]. *)
Example nan_position_is_not_clamped :
  let collapsed := {| DOMRect.top := 100; DOMRect.left := 50;
                      DOMRect.width := 0; DOMRect.height := 0 |} in
  let st := {| img := None; imgBounds := Some collapsed; showZoom := true;
               mgOffsetX := 0; mgOffsetY := 0; relX := PInf; relY := PInf |} in
  unclampedLeft exampleProps narrowWindow st collapsed = NaN /\
  exists sty : Style.t,
    mgStyle exampleProps narrowWindow st = Some sty /\
    Style.left sty = px NaN.
Proof.
  cbv zeta. split; [reflexivity |]. eexists. split; reflexivity.
Qed.

(** C3, as stated, fails on its worked example: for bounds
    [{top:100, left:50, width:200, height:200}], pointer [(150, 200)],
    zero offsets, a 150 by 150 lens and viewport
    [{scrollX:0, scrollY:0, width:1000}] the lens [left] is not 125. *)
Lemma worked_example_left_is_not_125 :
  let st' := final (onMouseMove exampleProps (mouseAt 150 200)
                                measuredState) in
  exists (sty : Style.t) (left : num),
    mgStyle exampleProps exampleWindow st' = Some sty /\
    Style.left sty = px left /\
    (left === Fin 125)%js = false.
Proof.
  cbv zeta. eexists. eexists. split; [reflexivity |].
  split; reflexivity.
Qed.

(** C3, amended: for every pointer position and present bounds the mouse
    handler stores [relX = (pointerX - bounds.left) / elementWidth] and
    [relY = (pointerY - bounds.top) / elementHeight], unclamped; on the
    worked example this gives [relX = 0.5], [relY = 0.5], lens
    [left = 75] and lens [top = 125]. *)
Theorem mouse_move_relative_position (props : Props) :
  (forall (e : MouseEvent.t) (st : State) (b : DOMRect.t),
      imgBounds st = Some b ->
      let st' := final (onMouseMove props e st) in
      relX st' = ((MouseEvent.clientX e - DOMRect.left b)
                  / Element.clientWidth (MouseEvent.target e))%js /\
      relY st' = ((MouseEvent.clientY e - DOMRect.top b)
                  / Element.clientHeight (MouseEvent.target e))%js) /\
  (let st' := final (onMouseMove exampleProps (mouseAt 150 200)
                                 measuredState) in
   (relX st' === Fin 0.5)%js = true /\
   (relY st' === Fin 0.5)%js = true /\
   exists (sty : Style.t) (left top : num),
     mgStyle exampleProps exampleWindow st' = Some sty /\
     Style.left sty = px left /\
     Style.top sty = px top /\
     (left === Fin 75)%js = true /\
     (top === Fin 125)%js = true).
Proof.
  split.
  - intros e st b Hb st'. subst st'.
    rewrite (onMouseMove_with_bounds props e st b Hb). split; reflexivity.
  - cbv zeta. split; [reflexivity | split; [reflexivity |]].
    eexists. eexists. eexists. split; [reflexivity |].
    split; [reflexivity |]. split; [reflexivity |]. split; reflexivity.
Qed.

(** No clamping: a pointer right of the image gives [relX = 1.5]. *)
Lemma mouse_move_relative_position_witness :
  relX (final (onMouseMove exampleProps (mouseAt 350 200) measuredState))
  = ((Fin 350 - Fin 50) / Fin 200)%js /\
  ((Fin 350 - Fin 50) / Fin 200 === Fin 1.5)%js = true.
Proof.
  split; [| reflexivity].
  exact (proj1 (proj1 (mouse_move_relative_position exampleProps)
                      (mouseAt 350 200) measuredState exampleBounds
                      eq_refl)).
Defined.

(** C4: with bounds present, the zoomed excerpt is placed at
    [calc(relX*100% + mgWidth/2 px - relX*mgWidth px)] horizontally and at
    [calc(relY*100% + mgHeight/2 px - relY*mgWidth px)] vertically, the
    last pixel term of the vertical formula using [mgWidth] and not
    [mgHeight]; its size is [(zoomFactor * bounds.width)%] by
    [(zoomFactor * bounds.height)%]. *)
Theorem zoomed_excerpt_placement (props : Props) (window : Window.t)
    (st : State) (b : DOMRect.t) :
  imgBounds st = Some b ->
  exists sty : Style.t,
    mgStyle props window st = Some sty /\
    Style.backgroundPosition sty
    = [Lit "calc("; Num (relX st * Fin 100)%js;
       Lit "% + "; Num (Fin (mgWidth props) / Fin 2)%js;
       Lit "px - "; Num (relX st * Fin (mgWidth props))%js;
       Lit "px)";
       Lit " ";
       Lit "calc("; Num (relY st * Fin 100)%js;
       Lit "% + "; Num (Fin (mgHeight props) / Fin 2)%js;
       Lit "px - "; Num (relY st * Fin (mgWidth props))%js;
       Lit "px)"] /\
    Style.backgroundSize sty
    = [Num (Fin (zoomFactor props) * Fin (DOMRect.width b))%js; Lit "% ";
       Num (Fin (zoomFactor props) * Fin (DOMRect.height b))%js; Lit "%"].
Proof.
  intros Hb. unfold mgStyle. rewrite Hb.
  eexists. split; [reflexivity |]. split; reflexivity.
Qed.

(** On a 200 by 100 lens at the centre of the image the vertical pixel
    term is [0.5 * 200], not [0.5 * 100]. *)
Lemma zoomed_excerpt_placement_witness :
  exists sty : Style.t,
    mgStyle wideLensProps exampleWindow shownState = Some sty /\
    Style.backgroundPosition sty
    = [Lit "calc("; Num (Fin 0.5 * Fin 100)%js;
       Lit "% + "; Num (Fin 200 / Fin 2)%js;
       Lit "px - "; Num (Fin 0.5 * Fin 200)%js;
       Lit "px)";
       Lit " ";
       Lit "calc("; Num (Fin 0.5 * Fin 100)%js;
       Lit "% + "; Num (Fin 100 / Fin 2)%js;
       Lit "px - "; Num (Fin 0.5 * Fin 200)%js;
       Lit "px)"] /\
    Style.backgroundSize sty
    = [Num (Fin 2 * Fin 200)%js; Lit "% ";
       Num (Fin 2 * Fin 200)%js; Lit "%"].
Proof.
  exact (zoomed_excerpt_placement wideLensProps exampleWindow shownState
           exampleBounds eq_refl).
Defined.

(* ================================================================== *)
(** ** More on the positioner *)

Section PositionerMore.

Variable props : Props.
Variable window : Window.t.

Local Open Scope js_scope.

Lemma div_Fin_zero (x y : Q) :
  (y == 0)%Q -> forall q : Q, Fin x / Fin y <> Fin q.
Proof.
  intros Hy q. unfold div.
  destruct (Qcompare_spec y 0) as [E|L|G].
  - destruct (x ?= 0)%Q; discriminate.
  - rewrite Hy in L. discriminate L.
  - rewrite Hy in G. discriminate G.
Qed.

(** A finite position that fits between the viewport's edges passes both
    clamps untouched. *)
Lemma clamps_fit (raw : Q) :
  (Window.scrollX window <= raw)%Q ->
  (raw + mgWidth props <= Window.innerWidth window + Window.scrollX window)%Q ->
  rightClamp props window (leftClamp window (Fin raw)) = Fin raw.
Proof.
  intros Hl Hr. unfold rightClamp, leftClamp.
  destruct (Fin raw <? Fin (Window.scrollX window)) eqn:E1;
    [apply ltb_Fin in E1; lra |].
  rewrite !add_Fin.
  match goal with
  | |- context [Fin ?a >? Fin ?c] =>
      destruct (Fin a >? Fin c) eqn:E2;
      [apply gtb_Fin in E2; lra | reflexivity]
  end.
Qed.

Lemma clamps_left_edge (raw : Q) :
  (mgWidth props <= Window.innerWidth window)%Q ->
  (raw < Window.scrollX window)%Q ->
  rightClamp props window (leftClamp window (Fin raw))
  = Fin (Window.scrollX window).
Proof.
  intros Hw Hl. unfold rightClamp, leftClamp.
  destruct (Fin raw <? Fin (Window.scrollX window)) eqn:E1;
    [| apply ltb_Fin_false in E1; lra].
  rewrite !add_Fin.
  match goal with
  | |- context [Fin ?a >? Fin ?c] =>
      destruct (Fin a >? Fin c) eqn:E2;
      [apply gtb_Fin in E2; lra | reflexivity]
  end.
Qed.

Lemma clamps_right_edge (raw : Q) :
  (mgWidth props <= Window.innerWidth window)%Q ->
  (Window.innerWidth window + Window.scrollX window < raw + mgWidth props)%Q ->
  rightClamp props window (leftClamp window (Fin raw))
  = Fin (Window.innerWidth window + Window.scrollX window - mgWidth props)%Q.
Proof.
  intros Hw Hr. unfold rightClamp, leftClamp.
  destruct (Fin raw <? Fin (Window.scrollX window)) eqn:E1;
    [apply ltb_Fin in E1; lra |].
  rewrite !add_Fin.
  match goal with
  | |- context [Fin ?a >? Fin ?c] =>
      destruct (Fin a >? Fin c) eqn:E2;
      [reflexivity | apply gtb_Fin_false in E2; lra]
  end.
Qed.

End PositionerMore.

(** X1: a lens whose unclamped position already lies between the
    viewport's edges is left where it is: neither clamp moves it. *)
Theorem lens_that_fits_is_not_moved (props : Props) (window : Window.t)
    (st : State) (b : DOMRect.t) (raw : Q) :
  imgBounds st = Some b ->
  unclampedLeft props window st b = Fin raw ->
  (Window.scrollX window <= raw)%Q ->
  (raw + mgWidth props <= Window.innerWidth window + Window.scrollX window)%Q ->
  exists sty : Style.t,
    mgStyle props window st = Some sty /\
    Style.left sty = px (Fin raw).
Proof.
  intros Hb Hraw Hl Hr.
  destruct (mgStyle_left props window st b Hb) as [sty [Hsty Hleft]].
  exists sty. split; [exact Hsty |].
  rewrite Hleft, Hraw, (clamps_fit props window raw Hl Hr). reflexivity.
Qed.

Lemma lens_that_fits_is_not_moved_witness :
  exists sty : Style.t,
    mgStyle exampleProps exampleWindow shownState = Some sty /\
    Style.left sty = px (Fin (50 + (0.5 * 200 + - (150 / 2) + -50) + 0)%Q).
Proof.
  apply (lens_that_fits_is_not_moved exampleProps exampleWindow shownState
           exampleBounds _ eq_refl eq_refl).
  - vm_compute. discriminate.
  - vm_compute. discriminate.
Defined.

(** X2: in a viewport at least as wide as the lens, a lens that would
    start left of the viewport is put at its left edge [scrollX], and a
    lens that would end right of it is put flush with its right edge,
    at [innerWidth + scrollX - mgWidth]. *)
Theorem lens_is_pinned_to_the_viewport_edges (props : Props)
    (window : Window.t) (st : State) (b : DOMRect.t) (raw : Q) :
  imgBounds st = Some b ->
  unclampedLeft props window st b = Fin raw ->
  (mgWidth props <= Window.innerWidth window)%Q ->
  exists sty : Style.t,
    mgStyle props window st = Some sty /\
    ((raw < Window.scrollX window)%Q ->
     Style.left sty = px (Fin (Window.scrollX window))) /\
    ((Window.innerWidth window + Window.scrollX window
      < raw + mgWidth props)%Q ->
     Style.left sty
     = px (Fin (Window.innerWidth window + Window.scrollX window
                - mgWidth props)%Q)).
Proof.
  intros Hb Hraw Hw.
  destruct (mgStyle_left props window st b Hb) as [sty [Hsty Hleft]].
  exists sty. split; [exact Hsty |]. rewrite Hleft, Hraw. split; intros H.
  - rewrite (clamps_left_edge props window raw Hw H). reflexivity.
  - rewrite (clamps_right_edge props window raw Hw H). reflexivity.
Qed.

(** The touch lens at the image's left edge: the unclamped position is
    75 left of the viewport. *)
Lemma lens_is_pinned_to_the_viewport_edges_witness :
  exists sty : Style.t,
    mgStyle exampleProps
            {| Window.innerWidth := 1000; Window.scrollX := 0;
               Window.scrollY := 0 |}
            {| img := Some exampleImg; imgBounds := Some exampleBounds;
               showZoom := true; mgOffsetX := -50; mgOffsetY := -50;
               relX := 0; relY := 0 |}
    = Some sty /\
    Style.left sty = px (Fin 0).
Proof.
  destruct (lens_is_pinned_to_the_viewport_edges
              exampleProps
              {| Window.innerWidth := 1000; Window.scrollX := 0;
                 Window.scrollY := 0 |}
              {| img := Some exampleImg; imgBounds := Some exampleBounds;
                 showZoom := true; mgOffsetX := -50; mgOffsetY := -50;
                 relX := 0; relY := 0 |}
              exampleBounds _ eq_refl eq_refl)
    as [sty [Hsty [Hleft _]]].
  - vm_compute. discriminate.
  - exists sty. split; [exact Hsty |]. apply Hleft. reflexivity.
Defined.

(** X5: the image shown inside the lens is [zoomImgSrc] when that prop is
    a non-empty string and the base image [src] when it is empty,
    whatever the rest of the configuration and the state are. *)
Theorem zoom_image_falls_back_to_src (props : Props) (window : Window.t)
    (st : State) (sty : Style.t) :
  mgStyle props window st = Some sty ->
  (zoomImgSrc props = ""%string ->
   Style.backgroundImage sty = [Lit "url("; Str (src props); Lit ")"]) /\
  (zoomImgSrc props <> ""%string ->
   Style.backgroundImage sty = [Lit "url("; Str (zoomImgSrc props); Lit ")"]).
Proof.
  unfold mgStyle. destruct (imgBounds st) as [b|]; [| discriminate].
  intros H. injection H as <-. cbn [Style.backgroundImage].
  split; intros Hz.
  - rewrite Hz. reflexivity.
  - destruct (zoomImgSrc props); [contradiction | reflexivity].
Qed.

Lemma zoom_image_falls_back_to_src_witness :
  exists sty : Style.t,
    mgStyle exampleProps exampleWindow shownState = Some sty /\
    Style.backgroundImage sty = [Lit "url("; Str "large.jpg"; Lit ")"].
Proof.
  destruct (mgStyle exampleProps exampleWindow shownState) as [sty|] eqn:E;
    [| discriminate E].
  exists sty. split; [reflexivity |].
  exact (proj1 (zoom_image_falls_back_to_src exampleProps exampleWindow
                  shownState sty E) eq_refl).
Defined.

(* ================================================================== *)
(** ** More on the handlers *)

Section HandlerMore.

Variable props : Props.

Local Open Scope js_scope.

Lemma in_unit_interval_div_zero (x l w : Q) :
  (w == 0)%Q ->
  in_unit_interval ((Fin x - Fin l) / Fin w) = false.
Proof.
  intros Hw. rewrite sub_Fin.
  destruct (in_unit_interval (Fin (x + - l) / Fin w)) eqn:E; [| reflexivity].
  apply in_unit_interval_Fin in E. destruct E as [q [Hq _]].
  exfalso. exact (div_Fin_zero _ _ Hw q Hq).
Qed.

Lemma calcImgBounds_run (st : State) :
  calcImgBounds st
  = mkRun (Normal tt)
          (mkState (img st)
                   (match img st with
                    | Some el => Some (Element.getBoundingClientRect el)
                    | None => imgBounds st
                    end)
                   (showZoom st) (mgOffsetX st) (mgOffsetY st)
                   (relX st) (relY st))
          (ConsoleLog "calcImgBounds" (img st)
           :: match img st with
              | Some el => [Measured (Element.getBoundingClientRect el)]
              | None => []
              end).
Proof.
  destruct (img st) as [el|] eqn:E.
  - rewrite (calcImgBounds_attached st el E), E. reflexivity.
  - rewrite (calcImgBounds_detached st E). destruct st; cbn in *.
    rewrite E. reflexivity.
Qed.

End HandlerMore.

(** X7: over an image whose client width or height is zero, a touch move
    with bounds present never shows the lens: the division by zero gives
    [NaN] or an infinity, which fails the interval test. *)
Theorem touch_over_a_collapsed_image_hides_the_lens (props : Props)
    (e : TouchEvent.t) (st : State) (b : DOMRect.t) (t : Touch.t)
    (rest : list Touch.t) :
  imgBounds st = Some b ->
  TouchEvent.targetTouches e = t :: rest ->
  (Element.clientWidth (TouchEvent.target e) == 0)%Q \/
  (Element.clientHeight (TouchEvent.target e) == 0)%Q ->
  onTouchMove props e st
  = mkRun (Normal tt)
          (mkState (img st) (imgBounds st) false (mgOffsetX st)
                   (mgOffsetY st) (relX st) (relY st))
          [].
Proof.
  intros Hb Ht Hz.
  rewrite (onTouchMove_with_touch props e st b t rest Hb Ht).
  destruct Hz as [Hz | Hz];
    rewrite (in_unit_interval_div_zero _ _ _ Hz);
    rewrite ?andb_false_r; reflexivity.
Qed.

Lemma touch_over_a_collapsed_image_hides_the_lens_witness :
  visibility (final (onTouchMove exampleProps touchOnCollapsed shownState))
  = HIDDEN.
Proof.
  rewrite (touch_over_a_collapsed_image_hides_the_lens
             exampleProps touchOnCollapsed shownState exampleBounds
             {| Touch.clientX := 60; Touch.clientY := 110 |} []
             eq_refl eq_refl (or_introl (Qeq_refl 0))).
  reflexivity.
Defined.

(** X8: the mouse handler has no such test: over an image whose client
    width is zero, a mouse move with bounds present stores a relative
    position that is no finite number and shows the lens all the same. *)
Theorem mouse_over_a_collapsed_image_shows_the_lens (props : Props)
    (e : MouseEvent.t) (st : State) (b : DOMRect.t) :
  imgBounds st = Some b ->
  (Element.clientWidth (MouseEvent.target e) == 0)%Q ->
  let st' := final (onMouseMove props e st) in
  visibility st' = SHOWN /\
  (forall q : Q, relX st' <> Fin q) /\
  in_unit_interval (relX st') = false.
Proof.
  intros Hb Hz st'. subst st'.
  rewrite (onMouseMove_with_bounds props e st b Hb). cbn [final relX].
  split; [reflexivity | split].
  - rewrite sub_Fin. apply div_Fin_zero. exact Hz.
  - apply in_unit_interval_div_zero. exact Hz.
Qed.

Lemma mouse_over_a_collapsed_image_shows_the_lens_witness :
  visibility (final (onMouseMove exampleProps mouseOnCollapsed
                                 measuredState)) = SHOWN /\
  relX (final (onMouseMove exampleProps mouseOnCollapsed measuredState))
  = PInf.
Proof.
  split; [| reflexivity].
  exact (proj1 (mouse_over_a_collapsed_image_shows_the_lens
                  exampleProps mouseOnCollapsed measuredState exampleBounds
                  eq_refl (Qeq_refl 0))).
Defined.

(* ================================================================== *)
(** ** Every handler, case by case *)

Section HandlerCases.

Variable props : Props.

Lemma onMouseMove_without_bounds (e : MouseEvent.t) (st : State) :
  imgBounds st = None ->
  onMouseMove props e st = mkRun (Normal tt) st [].
Proof. intros H. run_handler. rewrite H. reflexivity. Qed.

Lemma onTouchMove_without_bounds (e : TouchEvent.t) (st : State) :
  imgBounds st = None ->
  onTouchMove props e st = mkRun (Normal tt) st [].
Proof. intros H. run_handler. rewrite H. reflexivity. Qed.

Lemma onImageLoad_run (event : LoadEvent.t) (st : State) :
  onImageLoad event st
  = mkRun (Normal tt) (final (calcImgBounds st))
          (Emitted "image:load" event :: trace (calcImgBounds st)).
Proof.
  unfold onImageLoad, bind, tell. cbn [completion final trace app].
  rewrite (calcImgBounds_run st). reflexivity.
Qed.

End HandlerCases.

(** Split a goal about [handler props c st] into the paths the handlers
    can take, each with the handler's result written out. *)
Ltac handler_cases props c st :=
  let ev := fresh "ev" in
  let e := fresh "e" in
  let b := fresh "b" in
  let t := fresh "t" in
  let rest := fresh "rest" in
  let Hb := fresh "Hb" in
  let Ht := fresh "Ht" in
  let Hin := fresh "Hin" in
  destruct c as [ev| |e| | |e| |]; cbn [handler];
  [ rewrite (onImageLoad_run ev st), (calcImgBounds_run st)
  | unfold onMouseEnter; rewrite (calcImgBounds_run st)
  | destruct (imgBounds st) as [b|] eqn:Hb;
    [ rewrite (onMouseMove_with_bounds props e st b Hb)
    | rewrite (onMouseMove_without_bounds props e st Hb) ]
  | unfold onMouseOut, set_showZoom, modify
  | unfold onTouchStart; rewrite (calcImgBounds_run st)
  | destruct (imgBounds st) as [b|] eqn:Hb;
    [ destruct (TouchEvent.targetTouches e) as [|t rest] eqn:Ht;
      [ rewrite (onTouchMove_without_touch props e st b Hb Ht)
      | rewrite (onTouchMove_with_touch props e st b t rest Hb Ht);
        destruct (in_unit_interval _ && in_unit_interval _) eqn:Hin ]
    | rewrite (onTouchMove_without_bounds props e st Hb) ]
  | unfold onTouchEnd, set_showZoom, modify
  | rewrite (calcImgBounds_run st) ];
  cbn [completion final trace].

(** X9: a handler throws in one situation only: a touch move whose list
    of active touches is empty, arriving while the bounds are present.
    When it throws it has written no ref and done nothing observable. *)
Theorem handlers_throw_only_on_a_touch_move_without_touches (props : Props)
    (c : Call) (st : State) :
  ((exists err : JsError, completion (handler props c st) = Throw err) <->
   (exists e : TouchEvent.t,
       c = TouchMove e /\ TouchEvent.targetTouches e = [] /\
       imgBounds st <> None)) /\
  (forall err : JsError,
      completion (handler props c st) = Throw err ->
      final (handler props c st) = st /\ trace (handler props c st) = []).
Proof.
  split.
  - handler_cases props c st; split;
      try (intros [err H]; discriminate H);
      try (intros [e' [H _]]; discriminate H);
      try (intros [e' [H [H1 H2]]]; injection H as <-; congruence).
    + intros _. exists e. repeat split; [exact Ht | discriminate].
    + intros _. eexists. reflexivity.
  - handler_cases props c st; intros err H; try discriminate H.
    split; reflexivity.
Qed.

Lemma handlers_throw_only_on_a_touch_move_without_touches_witness :
  final (handler exampleProps (TouchMove touchWithoutTouches) shownState)
  = shownState.
Proof.
  exact (proj1 (proj2 (handlers_throw_only_on_a_touch_move_without_touches
                         exampleProps (TouchMove touchWithoutTouches)
                         shownState)
                      (TypeError
                         "Cannot read properties of undefined (reading 'clientX')")
                      eq_refl)).
Defined.

(** X10: measuring never throws and touches nothing but the cached
    bounds: with no image element bound it leaves the state as it is,
    bounds once measured are never dropped, and measuring twice in a row
    gives what measuring once gives. *)
Theorem measuring_is_safe_and_idempotent (st : State) :
  let r := calcImgBounds st in
  completion r = Normal tt /\
  (img st = None -> final r = st) /\
  (imgBounds st <> None -> imgBounds (final r) <> None) /\
  (img (final r) = img st /\ showZoom (final r) = showZoom st /\
   mgOffsetX (final r) = mgOffsetX st /\ mgOffsetY (final r) = mgOffsetY st /\
   relX (final r) = relX st /\ relY (final r) = relY st) /\
  final (calcImgBounds (final r)) = final r.
Proof.
  intros r. subst r. rewrite (calcImgBounds_run st). cbn [completion final].
  split; [reflexivity | split; [| split; [| split]]].
  - intros H. rewrite H. destruct st; cbn in *. now rewrite H.
  - destruct (img st); [discriminate | auto].
  - repeat split.
  - rewrite calcImgBounds_run. cbn [final img imgBounds showZoom mgOffsetX
                                     mgOffsetY relX relY].
    destruct (img st); reflexivity.
Qed.

Lemma measuring_is_safe_and_idempotent_witness :
  final (calcImgBounds initialState) = initialState /\
  imgBounds (final (calcImgBounds shownState)) <> None.
Proof.
  destruct (measuring_is_safe_and_idempotent initialState)
    as [_ [Hnone _]].
  destruct (measuring_is_safe_and_idempotent shownState)
    as [_ [_ [Hkeep _]]].
  split; [exact (Hnone eq_refl) | apply Hkeep; discriminate].
Defined.

(* ================================================================== *)
(** ** The component over time *)

Section Runs.

Variable props : Props.

Lemma run_cons (s : Step) (steps : list Step) (st : State) :
  run props (s :: steps) st
  = (fst (run props steps (fst (step props s st))),
     snd (step props s st) ++ snd (run props steps (fst (step props s st)))).
Proof.
  cbn [run]. destruct (step props s st) as [st1 tr1].
  cbn [fst snd]. destruct (run props steps st1) as [st2 tr2]. reflexivity.
Qed.

(** A property that holds at the start and that every permitted step
    keeps holds at the end of every run of permitted steps. *)
Lemma run_invariant (permitted : Step -> bool) (P : State -> Prop) :
  (forall (s : Step) (st : State),
      permitted s = true -> P st -> P (fst (step props s st))) ->
  forall (steps : list Step) (st : State),
    forallb permitted steps = true ->
    P st -> P (fst (run props steps st)).
Proof.
  intros Hstep steps.
  induction steps as [|s steps IH]; intros st Hall Hst; [exact Hst |].
  cbn [forallb] in Hall. apply andb_true_iff in Hall. destruct Hall as [Hs Hall].
  rewrite run_cons. cbn [fst]. apply IH; [exact Hall |].
  apply Hstep; assumption.
Qed.

Lemma forallb_always_true (steps : list Step) :
  forallb (fun _ : Step => true) steps = true.
Proof. induction steps; [reflexivity | assumption]. Qed.

(** Each step keeps: a lens that is shown has its bounds measured. *)
Lemma step_keeps_shown_measured (s : Step) (st : State) :
  (showZoom st = true -> imgBounds st <> None) ->
  showZoom (fst (step props s st)) = true ->
  imgBounds (fst (step props s st)) <> None.
Proof.
  intros Hinv. destruct s as [c | el]; cbn [step fst].
  - handler_cases props c st;
      cbn [showZoom imgBounds]; intros Hs;
      try discriminate Hs; try discriminate;
      try (destruct (img st); [discriminate | auto]);
      try (rewrite Hb; discriminate);
      try (exfalso; apply Hinv; [exact Hs | reflexivity]).
  - cbn. exact Hinv.
Qed.

(** Each step keeps measured bounds. *)
Lemma step_keeps_bounds (s : Step) (st : State) :
  imgBounds st <> None -> imgBounds (fst (step props s st)) <> None.
Proof.
  intros Hinv. destruct s as [c | el]; cbn [step fst].
  - handler_cases props c st; cbn [imgBounds];
      try (destruct (img st); [discriminate | auto]);
      try (rewrite Hb; discriminate);
      try exact Hinv;
      try (exfalso; apply Hinv; reflexivity).
  - cbn. exact Hinv.
Qed.

(** Each step other than a mouse move keeps the stored relative position
    in the unit square. *)
Lemma step_keeps_unit_square (s : Step) (st : State) :
  negb (isMouseMove s) = true ->
  in_unit_interval (relX st) = true /\ in_unit_interval (relY st) = true ->
  in_unit_interval (relX (fst (step props s st))) = true /\
  in_unit_interval (relY (fst (step props s st))) = true.
Proof.
  intros Hs Hinv. destruct s as [c | el]; cbn [step fst].
  - handler_cases props c st; cbn [relX relY];
      try exact Hinv; try discriminate Hs.
    apply andb_true_iff. exact Hin.
  - cbn. exact Hinv.
Qed.

(** From the state [setup] creates, a shown lens has measured bounds. *)
Lemma reachable_shown_measured (steps : list Step) :
  showZoom (fst (run props steps initialState)) = true ->
  imgBounds (fst (run props steps initialState)) <> None.
Proof.
  apply (run_invariant (fun _ => true)
           (fun st => showZoom st = true -> imgBounds st <> None)).
  - intros s st _. apply step_keeps_shown_measured.
  - apply forallb_always_true.
  - discriminate.
Qed.

Lemma notifications_app (tr1 tr2 : list Effect) :
  notifications (tr1 ++ tr2) = notifications tr1 ++ notifications tr2.
Proof.
  induction tr1 as [|e tr1 IH]; [reflexivity |].
  destruct e; cbn; rewrite IH; reflexivity.
Qed.

(** Only the load handler notifies the host, once, with its event. *)
Lemma step_notifications (s : Step) (st : State) :
  notifications (snd (step props s st)) = loads [s].
Proof.
  destruct s as [c | el]; cbn [step snd]; [| reflexivity].
  handler_cases props c st; try reflexivity;
    destruct (img st); reflexivity.
Qed.

End Runs.

(** X11: from the state [setup] creates, whatever handlers are called
    and however the image element is bound in between, the lens is never
    flagged as shown while the bounds are unmeasured. *)
Theorem a_shown_lens_always_has_bounds (props : Props) (steps : list Step) :
  showZoom (fst (run props steps initialState)) = true ->
  exists b : DOMRect.t,
    imgBounds (fst (run props steps initialState)) = Some b.
Proof.
  intros Hs.
  assert (Hinv : imgBounds (fst (run props steps initialState)) <> None)
    by (apply reachable_shown_measured; exact Hs).
  destruct (imgBounds (fst (run props steps initialState))) as [b|];
    [exists b; reflexivity | contradiction].
Qed.

Lemma a_shown_lens_always_has_bounds_witness :
  exists b : DOMRect.t,
    imgBounds (fst (run exampleProps
                        [BindImg (Some exampleImg); Handle MouseEnter;
                         Handle (MouseMove (mouseAt 150 200));
                         BindImg None; Handle Remeasure]
                        initialState))
    = Some b.
Proof.
  exact (a_shown_lens_always_has_bounds
           exampleProps
           [BindImg (Some exampleImg); Handle MouseEnter;
            Handle (MouseMove (mouseAt 150 200));
            BindImg None; Handle Remeasure]
           eq_refl).
Defined.

(** X12: bounds, once measured, are never dropped: no handler and no
    rebinding of the image element sets them back to absent. *)
Theorem measured_bounds_are_never_dropped (props : Props)
    (steps : list Step) (st : State) :
  imgBounds st <> None ->
  imgBounds (fst (run props steps st)) <> None.
Proof.
  apply (run_invariant props (fun _ => true)
           (fun st => imgBounds st <> None)).
  - intros s st' _. apply step_keeps_bounds.
  - apply forallb_always_true.
Qed.

Lemma measured_bounds_are_never_dropped_witness :
  imgBounds (fst (run exampleProps
                      [BindImg None; Handle Remeasure; Handle TouchEnd;
                       Handle (TouchMove touchWithoutTouches)]
                      measuredState))
  <> None.
Proof.
  apply (measured_bounds_are_never_dropped exampleProps). discriminate.
Defined.

(** X13: as long as no mouse move is handled, the stored relative
    position stays in the unit square: the touch handler stores a
    position only when both coordinates are in [[0,1]], and no other
    handler writes it. *)
Theorem touch_only_runs_keep_the_position_in_the_unit_square
    (props : Props) (steps : list Step) (st : State) :
  forallb (fun s => negb (isMouseMove s)) steps = true ->
  in_unit_interval (relX st) = true ->
  in_unit_interval (relY st) = true ->
  in_unit_interval (relX (fst (run props steps st))) = true /\
  in_unit_interval (relY (fst (run props steps st))) = true.
Proof.
  intros Hsteps Hx Hy.
  apply (run_invariant props (fun s => negb (isMouseMove s))
           (fun st => in_unit_interval (relX st) = true /\
                      in_unit_interval (relY st) = true)).
  - intros s st'. apply step_keeps_unit_square.
  - exact Hsteps.
  - split; assumption.
Qed.

Lemma touch_only_runs_keep_the_position_in_the_unit_square_witness :
  in_unit_interval
    (relX (fst (run exampleProps
                    [BindImg (Some exampleImg); Handle TouchStart;
                     Handle (TouchMove (touchAt 60 110));
                     Handle (TouchMove (touchAt 290 200));
                     Handle TouchEnd]
                    initialState)))
  = true.
Proof.
  exact (proj1 (touch_only_runs_keep_the_position_in_the_unit_square
                  exampleProps
                  [BindImg (Some exampleImg); Handle TouchStart;
                   Handle (TouchMove (touchAt 60 110));
                   Handle (TouchMove (touchAt 290 200));
                   Handle TouchEnd]
                  initialState eq_refl eq_refl eq_refl)).
Defined.

(** X14: over any run the host receives exactly one [image:load]
    notification per load event, in order and carrying that event; no
    other handler notifies the host. *)
Theorem one_notification_per_load_event (props : Props)
    (steps : list Step) (st : State) :
  notifications (snd (run props steps st)) = loads steps.
Proof.
  revert st. induction steps as [|s steps IH]; intros st; [reflexivity |].
  rewrite run_cons. cbn [snd].
  rewrite notifications_app, step_notifications, IH.
  destruct s as [[]|]; reflexivity.
Qed.

(* ================================================================== *)
(** ** The lens element of the template *)

(** X15: whenever the template renders the lens element, the element
    carries a complete style (never the empty object) and the class
    [magnifier__visible]; its class list is [magnifier__glass
    magnifier__visible], followed by [magnifier__circle] exactly when
    [mgShape] is the string [circle]. *)
Theorem a_rendered_lens_is_styled_and_visible (props : Props)
    (view : ViewProps) (window : Window.t) (st : State) (d : LensDiv.t) :
  lensDiv props view window st = Some d ->
  (exists sty : Style.t, LensDiv.style d = Some sty) /\
  LensDiv.class d
  = (if String.eqb (mgShape props) "circle"
     then "magnifier__glass magnifier__visible magnifier__circle"
     else "magnifier__glass magnifier__visible")%string.
Proof.
  unfold lensDiv, mgClasses.
  destruct (showZoom st); [| discriminate].
  destruct (imgBounds st) as [b|] eqn:Hb; [| discriminate].
  destruct (mgShow view); [| discriminate].
  cbn [andb]. intros H. injection H as <-. cbn [LensDiv.style LensDiv.class].
  split.
  - destruct (mgStyle_left props window st b Hb) as [sty [Hsty _]].
    exists sty. exact Hsty.
  - destruct (String.eqb (mgShape props) "circle"); reflexivity.
Qed.

Lemma a_rendered_lens_is_styled_and_visible_witness :
  exists d : LensDiv.t,
    lensDiv wideLensProps defaultViewProps exampleWindow shownState = Some d /\
    LensDiv.class d = "magnifier__glass magnifier__visible"%string.
Proof.
  destruct (lensDiv wideLensProps defaultViewProps exampleWindow shownState)
    as [d|] eqn:E; [| discriminate E].
  exists d. split; [reflexivity |].
  exact (proj2 (a_rendered_lens_is_styled_and_visible
                  wideLensProps defaultViewProps exampleWindow shownState
                  d E)).
Defined.

(** X16: from the state [setup] creates, whatever handlers are called,
    the lens element is rendered exactly when the lens is flagged as
    shown and [mgShow] is set: the template's test of the bounds never
    holds a shown lens back. *)
Theorem the_lens_is_rendered_iff_shown_and_enabled (props : Props)
    (view : ViewProps) (window : Window.t) (steps : list Step) :
  let st := fst (run props steps initialState) in
  (exists d : LensDiv.t, lensDiv props view window st = Some d) <->
  showZoom st = true /\ mgShow view = true.
Proof.
  intros st. subst st.
  pose proof (reachable_shown_measured props steps) as Hinv.
  unfold lensDiv.
  destruct (showZoom (fst (run props steps initialState))).
  - destruct (imgBounds (fst (run props steps initialState)));
      [| exfalso; apply Hinv; reflexivity].
    destruct (mgShow view); cbn [andb]; split.
    + intros _. split; reflexivity.
    + intros _. eexists. reflexivity.
    + intros [d H]. discriminate H.
    + intros [_ H]. discriminate H.
  - split.
    + intros [d H]. discriminate H.
    + intros [H _]. discriminate H.
Qed.

(* ================================================================== *)
(** ** Window listeners *)

Section Listeners.

Import EventTarget.

Lemma same_refl (l : Listener) : same l l = true.
Proof.
  unfold same.
  rewrite String.eqb_refl, Nat.eqb_refl, Bool.eqb_reflx. reflexivity.
Qed.

Lemma foreign_callback_not_listed (l : Listener) (ls : list Listener) :
  (forall l', In l' ls -> callback l' <> callback l) ->
  existsb (same l) ls = false.
Proof.
  induction ls as [|l' ls IH]; intros H; [reflexivity |].
  cbn [existsb]. rewrite IH by (intros l'' Hin; apply H; right; exact Hin).
  unfold same.
  destruct (Nat.eqb_spec (callback l) (callback l')) as [E | _].
  - exfalso. apply (H l'); [left; reflexivity | congruence].
  - rewrite andb_false_r. reflexivity.
Qed.

Lemma removeEventListener_app (l : Listener) (ls rest : list Listener) :
  existsb (same l) ls = false ->
  removeEventListener l (ls ++ l :: rest) = ls ++ rest.
Proof.
  induction ls as [|l' ls IH]; cbn [existsb app removeEventListener].
  - intros _. rewrite same_refl. reflexivity.
  - intros H. apply orb_false_iff in H. destruct H as [H1 H2].
    rewrite H1, (IH H2). reflexivity.
Qed.

End Listeners.

(** X17: mounting on the client appends two listeners for the debounced
    re-measurement to the window, one for [resize] and a capturing one
    for [scroll]; outside the client it registers nothing; and unmounting
    leaves the window's listener list exactly as it was before mounting,
    the capturing [scroll] listener included. *)
Theorem unmounting_removes_what_mounting_added (client : bool) (cb : nat)
    (listeners : list EventTarget.Listener) :
  (forall l : EventTarget.Listener,
      In l listeners -> EventTarget.callback l <> cb) ->
  let life := lifecycle client cb in
  let during := runHooks (Lifecycle.mounted life) listeners in
  during
  = (if client
     then listeners ++ [EventTarget.mkListener "resize" cb false;
                        EventTarget.mkListener "scroll" cb true]
     else listeners) /\
  runHooks (Lifecycle.unmounted life) during = listeners.
Proof.
  intros Hfresh life during. subst life during.
  destruct client; cbn [lifecycle Lifecycle.mounted Lifecycle.unmounted
                        runHooks fold_left]; [| split; reflexivity].
  assert (Hmount :
            onMountedHook cb listeners
            = listeners ++ [EventTarget.mkListener "resize" cb false;
                            EventTarget.mkListener "scroll" cb true]).
  { unfold onMountedHook, EventTarget.addEventListener.
    rewrite (foreign_callback_not_listed _ listeners) by exact Hfresh.
    rewrite existsb_app.
    rewrite (foreign_callback_not_listed _ listeners) by exact Hfresh.
    cbn. rewrite <- app_assoc. reflexivity. }
  split; [exact Hmount |].
  rewrite Hmount. unfold onUnmountedHook.
  rewrite (removeEventListener_app
             (EventTarget.mkListener "resize" cb false) listeners
             [EventTarget.mkListener "scroll" cb true])
    by (apply foreign_callback_not_listed; exact Hfresh).
  rewrite (removeEventListener_app
             (EventTarget.mkListener "scroll" cb true) listeners [])
    by (apply foreign_callback_not_listed; exact Hfresh).
  apply app_nil_r.
Qed.

(** Another component's listeners are on the window already. *)
Lemma unmounting_removes_what_mounting_added_witness :
  runHooks (Lifecycle.unmounted (lifecycle true 7))
           (runHooks (Lifecycle.mounted (lifecycle true 7))
                     [EventTarget.mkListener "resize" 3 false;
                      EventTarget.mkListener "scroll" 3 true])
  = [EventTarget.mkListener "resize" 3 false;
     EventTarget.mkListener "scroll" 3 true].
Proof.
  apply (unmounting_removes_what_mounting_added
           true 7
           [EventTarget.mkListener "resize" 3 false;
            EventTarget.mkListener "scroll" 3 true]).
  intros l [<- | [<- | []]]; discriminate.
Defined.

(* ================================================================== *)
(** ** The horizontal placement in binary64 *)

Section LensLeft.

Context {F : Type} (A : Lens.Arithmetic F).


End LensLeft.

(** The [left] of the style is the computation of [Lens.left] in the
    exact arithmetic. *)
Lemma mgStyle_left_is_Lens_left (props : Props) (window : Window.t)
    (st : State) (b : DOMRect.t) :
  imgBounds st = Some b ->
  exists sty : Style.t,
    mgStyle props window st = Some sty /\
    Style.left sty
    = [Num (Lens.left Lens.exact (exactInput props window st b)); Lit "px"].
Proof.
  intros H. unfold mgStyle. rewrite H. eexists. split; reflexivity.
Qed.




